(** * Flat-prediction: the real-estate price scripts over pandas and scikit-learn

    The repository is a set of linear Python scripts.  Each one is embedded
    here as a function in a small state-and-exception monad over a world made
    of a file system and a console/IO log.  The pandas operations the scripts
    depend on for control flow (column lookup, [drop], [select_dtypes],
    [head], [sort_values], the [DataFrame] constructor) are written out; the
    numerical library (imputers, encoders, the forest, the splitters and the
    metrics) is an interface, [Sklearn], whose operations the scripts call. *)

From Stdlib Require Import Ascii String List ZArith QArith Qround Bool Lia Permutation Sorted.
From stdpp Require Import base gmap strings.

Import ListNotations.
Local Open Scope string_scope.
Local Open Scope list_scope.

(** ** Tables *)

Module Pandas.

(** Column dtypes that [pd.read_csv] infers. *)
Inductive dtype := object | int64 | float64 | bool_.

Definition dtype_eqb (a b : dtype) : bool :=
  match a, b with
  | object, object | int64, int64 | float64, float64 | bool_, bool_ => true
  | _, _ => false
  end.

(** [np.number] covers the integer and floating dtypes, not [bool] or
    [object]. *)
Definition is_number (d : dtype) : bool :=
  match d with int64 | float64 => true | _ => false end.

(** A cell of a table.  Numbers are rationals: no statement below depends on
    rounding. *)
Inductive cell :=
| CInt (z : Z)
| CFloat (q : Q)
| CStr (s : string)
| CBool (b : bool)
| NaN.

(** A table, row-major.  [pd.read_csv] gives the rows a [RangeIndex], so a
    row is identified by its position. *)
Record DataFrame := mkDataFrame {
  columns : list (string * dtype);
  rows : list (list cell)
}.

(** A named column taken out of a table. *)
Record Series := mkSeries {
  name : string;
  sdtype : dtype;
  values : list cell
}.

Definition column_names (df : DataFrame) : list string := map fst (columns df).

(** [len(df)] *)
Definition len (df : DataFrame) : nat := length (rows df).

(** [label in df.columns] *)
Definition has_column (label : string) (df : DataFrame) : bool :=
  existsb (String.eqb label) (column_names df).

Definition mem (label : string) (labels : list string) : bool :=
  existsb (String.eqb label) labels.

(** Position of the first column called [label]. *)
Fixpoint position (label : string) (cols : list (string * dtype)) : option nat :=
  match cols with
  | [] => None
  | (c, _) :: cols' =>
      if String.eqb label c then Some O
      else option_map S (position label cols')
  end.

(** Rows all as wide as the header, the shape [pd.read_csv] produces. *)
Definition rectangular (df : DataFrame) : Prop :=
  Forall (fun r => length r = length (columns df)) (rows df).

(** Keep the entries of [r] whose column (same position in [cols]) satisfies
    [keep]. *)
Fixpoint project (keep : string -> bool) (cols : list (string * dtype))
    (r : list cell) : list cell :=
  match cols, r with
  | (c, _) :: cols', v :: r' =>
      if keep c then v :: project keep cols' r' else project keep cols' r'
  | _, _ => []
  end.

(** The table restricted to the columns whose name satisfies [keep]. *)
Definition select (keep : string -> bool) (df : DataFrame) : DataFrame :=
  {| columns := List.filter (fun cd => keep (fst cd)) (columns df);
     rows := map (project keep (columns df)) (rows df) |}.

End Pandas.

Import Pandas.

(** ** Exceptions and results of library calls *)

(** An exception, with who raised it: a library call, or a [raise] statement
    written in the script itself. *)
Inductive exn :=
| LibraryError (exc_type : string)
| ScriptError (exc_type : string) (message : string).

(** What a library call gives back: a value, or the exception it raises. *)
Inductive result (A : Type) :=
| Ok (a : A)
| Error (exc_type : string).
Arguments Ok {A} a.
Arguments Error {A} exc_type.

Definition result_bind {A B} (r : result A) (k : A -> result B) : result B :=
  match r with
  | Ok a => k a
  | Error e => Error e
  end.

Module PandasOps.

(** [df.drop(columns=labels)]: every label must be a column, else
    [KeyError]; all columns with one of the labels go. *)
Definition drop (labels : list string) (df : DataFrame) : result DataFrame :=
  if forallb (fun l => has_column l df) labels
  then Ok (select (fun c => negb (mem c labels)) df)
  else Error "KeyError".

(** [df[label]] *)
Definition getitem (label : string) (df : DataFrame) : result Series :=
  match position label (columns df) with
  | Some i =>
      Ok {| name := label;
            sdtype := nth i (map snd (columns df)) object;
            values := map (fun r => nth i r NaN) (rows df) |}
  | None => Error "KeyError"
  end.

(** [df.select_dtypes(include=["object"]).columns.tolist()] *)
Definition object_columns (df : DataFrame) : list string :=
  map fst (List.filter (fun cd => dtype_eqb (snd cd) object) (columns df)).

(** [df.select_dtypes(include=[np.number]).columns.tolist()] *)
Definition number_columns (df : DataFrame) : list string :=
  map fst (List.filter (fun cd => is_number (snd cd)) (columns df)).

(** [df.head(n)] *)
Definition head (n : nat) (df : DataFrame) : DataFrame :=
  {| columns := columns df; rows := firstn n (rows df) |}.

(** [pd.Series(range(n), name=...)] *)
Definition range_series (nm : string) (n : nat) : Series :=
  {| name := nm; sdtype := int64;
     values := map (fun i => CInt (Z.of_nat i)) (seq 0 n) |}.

(** [pd.DataFrame({"a": series, "b": array})] for a series with a
    [RangeIndex] and a float array: the array is laid against the series
    position by position and must be as long, else [ValueError]. *)
Definition frame_of_series_and_array (a : string) (s : Series)
    (b : string) (arr : list Q) : result DataFrame :=
  if Nat.eqb (length (values s)) (length arr)
  then Ok {| columns := [(a, sdtype s); (b, float64)];
             rows := map (fun p => [fst p; CFloat (snd p)])
                         (combine (values s) arr) |}
  else Error "ValueError".

(** Rows at the given positions, in the given order
    ([_safe_indexing] / [iloc]). *)
Definition take {A} (idx : list nat) (l : list A) : list A :=
  omap (fun i => l !! i) idx.

Definition iloc (idx : list nat) (df : DataFrame) : DataFrame :=
  {| columns := columns df; rows := take idx (rows df) |}.

Definition iloc_series (idx : list nat) (s : Series) : Series :=
  {| name := name s; sdtype := sdtype s; values := take idx (values s) |}.

End PandasOps.

(** ** scikit-learn objects, as the scripts construct them *)

Module SklearnConfig.

(** Unfitted estimators with the constructor arguments the scripts pass. *)
#[warnings="-register-all"]
Inductive estimator :=
| SimpleImputer (strategy : string)
| OneHotEncoder (handle_unknown : string)
| RandomForestRegressor (n_estimators : Z) (random_state : Z) (n_jobs : Z)
| Pipeline (steps : list (string * estimator))
| ColumnTransformer (transformers : list (string * estimator * list string)).

(** [KFold(n_splits, shuffle, random_state)] *)
Record KFold := mkKFold {
  n_splits : Z;
  shuffle : bool;
  kf_random_state : Z
}.

End SklearnConfig.

Import SklearnConfig.

(** The numerical library.  Fitting, transforming, predicting, splitting and
    scoring are calls into scikit-learn and numpy; the scripts only pass
    arguments and results along. *)
Class Sklearn := {
  FittedTransformer : Type;
  FittedRegressor : Type;
  Matrix : Type;
  (** [ShuffleSplit]: from the number of samples, the test size and the
      seed, the train positions and the test positions. *)
  shuffle_split : nat -> Q -> Z -> result (list nat * list nat);
  (** [transformer.fit_transform(X, y)] *)
  fit_transform : estimator -> DataFrame -> Series ->
                  result (FittedTransformer * Matrix);
  (** [transformer.transform(X)] *)
  transform : FittedTransformer -> DataFrame -> result Matrix;
  (** [regressor.fit(Xt, y)] *)
  fit_regressor : estimator -> Matrix -> Series -> result FittedRegressor;
  (** [regressor.predict(Xt)] *)
  predict_regressor : FittedRegressor -> Matrix -> result (list Q);
  mean_absolute_error : Series -> list Q -> result Q;
  mean_squared_error : Series -> list Q -> result Q;
  r2_score : Series -> list Q -> result Q;
  np_sqrt : Q -> Q;
  (** [cross_val_score(estimator, X, y, cv=..., scoring=...)] *)
  cross_val_score : estimator -> DataFrame -> Series -> KFold -> string ->
                    result (list Q);
  np_mean : list Q -> Q;
  np_std : list Q -> Q;
  (** [preprocess.get_feature_names_out()] *)
  get_feature_names_out : FittedTransformer -> result (list string);
  (** [model.feature_importances_] *)
  feature_importances_ : FittedRegressor -> list Q
}.

(** ** The world the scripts run in *)

(** How a run ends: the script falls off its end, an exception reaches the
    console, or the script calls [exit()]. *)
Inductive outcome (A : Type) :=
| Returned (a : A)
| Raised (e : exn)
| Exited.
Arguments Returned {A} a.
Arguments Raised {A} e.
Arguments Exited {A}.

Section World.
Context `{L : Sklearn}.

(** A fitted step of a pipeline, and a fitted pipeline with its
    [named_steps] in order. *)
Inductive fitted_step :=
| FittedT (t : FittedTransformer)
| FittedR (r : FittedRegressor).

Definition FittedPipeline := list (string * fitted_step).

(** [Pipeline([(n1, transformer), (n2, regressor)]).fit(X, y)]: the
    transformer is fit on [X] and applied to it, the regressor is fit on the
    transformed data.  Only the two-step shape the scripts build is given a
    meaning. *)
Definition Pipeline_fit (p : estimator) (X : DataFrame) (y : Series)
    : result FittedPipeline :=
  match p with
  | Pipeline [(n1, pre); (n2, reg)] =>
      result_bind (fit_transform pre X y) (fun '(ft, Xt) =>
      result_bind (fit_regressor reg Xt y) (fun fr =>
      Ok [(n1, FittedT ft); (n2, FittedR fr)]))
  | _ => Error "TypeError"
  end.

(** [pipeline.predict(X)]: the fitted transformer is applied to [X], the
    fitted regressor predicts from the result. *)
Definition Pipeline_predict (fp : FittedPipeline) (X : DataFrame)
    : result (list Q) :=
  match fp with
  | [(_, FittedT ft); (_, FittedR fr)] =>
      result_bind (transform ft X) (fun Xt => predict_regressor fr Xt)
  | _ => Error "NotFittedError"
  end.

(** [pipeline.named_steps[key]] *)
Fixpoint named_steps (fp : FittedPipeline) (key : string)
    : result fitted_step :=
  match fp with
  | [] => Error "KeyError"
  | (n, s) :: fp' => if String.eqb key n then Ok s else named_steps fp' key
  end.

(** [train_test_split(X, y, test_size=..., random_state=...)]: one shuffle
    split of the positions, used to index both [X] and [y]. *)
Definition train_test_split (X : DataFrame) (y : Series) (test_size : Q)
    (random_state : Z) : result (DataFrame * DataFrame * Series * Series) :=
  result_bind (shuffle_split (len X) test_size random_state) (fun '(train, test) =>
  Ok (PandasOps.iloc train X, PandasOps.iloc test X,
      PandasOps.iloc_series train y, PandasOps.iloc_series test y)).

(** Files: a CSV file holds a table, a pickle holds a fitted pipeline, and
    figures and the analysis tables are kept without their content. *)
Inductive file :=
| CsvFile (df : DataFrame)
| PickleFile (model : FittedPipeline)
| Artifact.

(** What a [print] shows: the literal text, and the values formatted into
    it. *)
Inductive printed :=
| Text (s : string)
| Names (label : string) (l : list string)
| Count (label : string) (n : nat)
| Shape (label : string) (nrows ncols : nat)
| Number (label : string) (q : Q)
| Table (label : string) (df : DataFrame)
| Summary (label : string).

(** What a script does to the outside, in order. *)
Inductive event :=
| ReadCsv (path : string)
| LoadModel (path : string)
| WriteCsv (path : string)
| DumpModel (path : string)
| SaveFig (path : string)
| MakeDirs (path : string)
| Print (p : printed).

Record world := mkWorld {
  fs : gmap string file;
  log : list event
}.

Definition script (A : Type) : Type := world -> outcome A * world.

Definition ret {A} (a : A) : script A := fun w => (Returned a, w).

Definition bind {A B} (m : script A) (k : A -> script B) : script B :=
  fun w =>
    match m w with
    | (Returned a, w') => k a w'
    | (Raised e, w') => (Raised e, w')
    | (Exited, w') => (Exited, w')
    end.

(** An exception of a library call propagates as it is. *)
Definition lift {A} (r : result A) : script A :=
  fun w =>
    match r with
    | Ok a => (Returned a, w)
    | Error e => (Raised (LibraryError e), w)
    end.

(** [raise Exc(message)] in the script's own text. *)
Definition raise {A} (exc_type message : string) : script A :=
  fun w => (Raised (ScriptError exc_type message), w).

(** [exit()] *)
Definition exit {A} : script A := fun w => (Exited, w).

Definition emit (e : event) : script unit :=
  fun w => (Returned tt, {| fs := fs w; log := log w ++ [e] |}).

Definition print (p : printed) : script unit := emit (Print p).

(** [os.path.exists(path)] *)
Definition os_path_exists (path : string) : script bool :=
  fun w => (Returned (bool_decide (is_Some (fs w !! path))), w).

(** [pd.read_csv(path)] *)
Definition pd_read_csv (path : string) : script DataFrame :=
  fun w =>
    match fs w !! path with
    | Some (CsvFile df) =>
        (Returned df, {| fs := fs w; log := log w ++ [ReadCsv path] |})
    | Some _ => (Raised (LibraryError "ParserError"), w)
    | None => (Raised (LibraryError "FileNotFoundError"), w)
    end.

(** [joblib.load(path)] *)
Definition joblib_load (path : string) : script FittedPipeline :=
  fun w =>
    match fs w !! path with
    | Some (PickleFile m) =>
        (Returned m, {| fs := fs w; log := log w ++ [LoadModel path] |})
    | Some _ => (Raised (LibraryError "UnpicklingError"), w)
    | None => (Raised (LibraryError "FileNotFoundError"), w)
    end.

Definition write (path : string) (f : file) (e : event) : script unit :=
  fun w => (Returned tt, {| fs := <[path := f]> (fs w); log := log w ++ [e] |}).

(** [df.to_csv(path, index=False)] *)
Definition to_csv (df : DataFrame) (path : string) : script unit :=
  write path (CsvFile df) (WriteCsv path).

(** [joblib.dump(model, path)] *)
Definition joblib_dump (m : FittedPipeline) (path : string) : script unit :=
  write path (PickleFile m) (DumpModel path).

(** [plt.savefig(path)] *)
Definition savefig (path : string) : script unit :=
  write path Artifact (SaveFig path).

(** A table written by [to_csv] whose content is not followed here. *)
Definition save_artifact (path : string) : script unit :=
  write path Artifact (WriteCsv path).

(** [os.makedirs(path, exist_ok=True)] *)
Definition os_makedirs (path : string) : script unit := emit (MakeDirs path).

(** [os.path.join] (POSIX): a part that starts with the separator restarts
    the path, and no separator is added after an empty or already
    terminated prefix. *)
Definition starts_with_sep (s : string) : bool :=
  match s with
  | String c _ => Ascii.eqb c "/"%char
  | EmptyString => false
  end.

Fixpoint ends_with_sep (s : string) : bool :=
  match s with
  | EmptyString => false
  | String c EmptyString => Ascii.eqb c "/"%char
  | String _ s' => ends_with_sep s'
  end.

Definition join2 (a b : string) : string :=
  if starts_with_sep b then b
  else if String.eqb a EmptyString || ends_with_sep a then a +:+ b
  else a +:+ "/" +:+ b.

Definition os_path_join (parts : list string) : string :=
  match parts with
  | [] => EmptyString
  | a :: rest => fold_left join2 rest a
  end.

End World.

(** The scripts are written with stdpp's monad notation:
    [x ← m; k] runs [m], stops at an exception or an exit, else goes on
    with [k]. *)
#[global] Instance script_ret `{L : Sklearn} : MRet script := @ret L.
#[global] Instance script_bind `{L : Sklearn} : MBind script :=
  fun A B k m => bind m k.

(** ["=" * n] *)
Fixpoint str_mul (s : string) (n : nat) : string :=
  match n with
  | O => EmptyString
  | S n' => s +:+ str_mul s n'
  end.

(** ** ml_model/scripts/train_model_clean.py *)

Module train_model_clean.
Section Script.
Context `{L : Sklearn}.

Definition TARGET : string := "price".

Definition cat_cols (X : DataFrame) : list string := PandasOps.object_columns X.

Definition num_cols (X : DataFrame) : list string :=
  List.filter (fun c => negb (mem c (cat_cols X))) (column_names X).

Definition numeric_transformer : estimator :=
  Pipeline [("imputer", SimpleImputer "median")].

Definition categorical_transformer : estimator :=
  Pipeline [("imputer", SimpleImputer "most_frequent");
            ("onehot", OneHotEncoder "ignore")].

Definition preprocessor (X : DataFrame) : estimator :=
  ColumnTransformer [("num", numeric_transformer, num_cols X);
                     ("cat", categorical_transformer, cat_cols X)].

Definition pipeline (X : DataFrame) : estimator :=
  Pipeline [("preprocess", preprocessor X);
            ("model", RandomForestRegressor 400 42 (-1))].

Definition test_size : Q := 0.2%Q.
Definition random_state : Z := 42.

(** The three metrics of STEP 8. *)
Record metrics := mkMetrics { mae : Q; rmse : Q; r2 : Q }.

Definition evaluate (y_val : Series) (y_pred : list Q) : result metrics :=
  result_bind (mean_absolute_error y_val y_pred) (fun mae =>
  result_bind (mean_squared_error y_val y_pred) (fun mse =>
  result_bind (r2_score y_val y_pred) (fun r2 =>
  Ok {| mae := mae; rmse := np_sqrt mse; r2 := r2 |}))).

Definition main : script metrics :=
  df ← pd_read_csv "data/data.csv";
  X ← lift (PandasOps.drop [TARGET; "index"] df);
  y ← lift (PandasOps.getitem TARGET df);
  print (Names "Numerical features" (num_cols X));;
  print (Names "Categorical features" (cat_cols X));;
  '(X_train, X_val, y_train, y_val) ←
      lift (train_test_split X y test_size random_state);
  print (Count "Training samples" (len X_train));;
  print (Count "Validation samples" (len X_val));;
  print (Text "Training model...");;
  fitted ← lift (Pipeline_fit (pipeline X) X_train y_train);
  print (Text "Training complete!");;
  y_pred ← lift (Pipeline_predict fitted X_val);
  m ← lift (evaluate y_val y_pred);
  print (Text "=== MODEL PERFORMANCE ===");;
  print (Number "MAE" (mae m));;
  print (Number "RMSE" (rmse m));;
  print (Number "R2" (r2 m));;
  joblib_dump fitted "model_pipeline.pkl";;
  print (Text "Model saved to: model_pipeline.pkl");;
  print (Text "Model size: ~2.9 GB");;
  print (Text "Ready for predictions!");;
  mret m.

End Script.
End train_model_clean.

(** ** ml_model/scripts/validate_cv.py *)

Module validate_cv.
Section Script.
Context `{L : Sklearn}.
Variable BASE_DIR : string.

Definition DATA_PATH : string := os_path_join [BASE_DIR; "data"; "data.csv"].

Definition TARGET : string := "price".

Definition cat_cols (X : DataFrame) : list string := PandasOps.object_columns X.

Definition num_cols (X : DataFrame) : list string :=
  List.filter (fun c => negb (mem c (cat_cols X))) (column_names X).

Definition numeric_transformer : estimator :=
  Pipeline [("imputer", SimpleImputer "median")].

Definition categorical_transformer : estimator :=
  Pipeline [("imputer", SimpleImputer "most_frequent");
            ("onehot", OneHotEncoder "ignore")].

Definition preprocess (X : DataFrame) : estimator :=
  ColumnTransformer [("num", numeric_transformer, num_cols X);
                     ("cat", categorical_transformer, cat_cols X)].

Definition model : estimator := RandomForestRegressor 400 42 (-1).

Definition pipeline (X : DataFrame) : estimator :=
  Pipeline [("preprocess", preprocess X); ("model", model)].

Definition kf : KFold := {| n_splits := 5; shuffle := true; kf_random_state := 42 |}.

Definition main : script unit :=
  print (Text (str_mul "=" 70));;
  print (Text "CROSS VALIDATION (5-FOLD) - REAL ESTATE PRICE PREDICTION");;
  print (Text (str_mul "=" 70));;
  print (Text ("Loading: " +:+ DATA_PATH));;
  df ← pd_read_csv DATA_PATH;
  X ← lift (PandasOps.drop [TARGET; "index"] df);
  y ← lift (PandasOps.getitem TARGET df);
  print (Text "Running 5-Fold Cross Validation...");;
  neg_mae ← lift (cross_val_score (pipeline X) X y kf "neg_mean_absolute_error");
  let mae_scores := map Qopp neg_mae in
  neg_mse ← lift (cross_val_score (pipeline X) X y kf "neg_mean_squared_error");
  let rmse_scores := map (fun s => np_sqrt (Qopp s)) neg_mse in
  r2_scores ← lift (cross_val_score (pipeline X) X y kf "r2");
  print (Text "CV RESULTS (5 folds)");;
  print (Number "MAE mean" (np_mean mae_scores));;
  print (Number "MAE std" (np_std mae_scores));;
  print (Number "RMSE mean" (np_mean rmse_scores));;
  print (Number "RMSE std" (np_std rmse_scores));;
  print (Number "R2 mean" (np_mean r2_scores));;
  print (Number "R2 std" (np_std r2_scores));;
  print (Text "Explanation for viva:");;
  print (Text "- Cross-validation evaluates the model on 5 different splits.");;
  print (Text "- This checks generalization and reduces overfitting risk.");;
  print (Text (str_mul "=" 70)).

End Script.
End validate_cv.

(** ** ml_model/scripts/predict_clean.py *)

Module predict_clean.
Section Script.
Context `{L : Sklearn}.

(** STEP 3: the index kept for the submission, and the features. *)
Definition prepare (test_df : DataFrame) : result (Series * DataFrame) :=
  if has_column "index" test_df then
    result_bind (PandasOps.getitem "index" test_df) (fun submission_index =>
    result_bind (PandasOps.drop ["index"] test_df) (fun X_test =>
    Ok (submission_index, X_test)))
  else
    Ok (PandasOps.range_series "index" (len test_df), test_df).

Definition main : script DataFrame :=
  model ← joblib_load "model_pipeline.pkl";
  print (Text "Model loaded");;
  test_df ← pd_read_csv "data/test.csv";
  print (Shape "Test data shape" (len test_df) (length (columns test_df)));;
  '(submission_index, X_test) ← lift (prepare test_df);
  predictions ← lift (Pipeline_predict model X_test);
  print (Count "Generated predictions" (length predictions));;
  submission ← lift (PandasOps.frame_of_series_and_array
                       "index" submission_index "price" predictions);
  to_csv submission "submission.csv";;
  print (Text "Submission saved to: submission.csv");;
  print (Text "Sample predictions:");;
  print (Table "submission.head(10)" (PandasOps.head 10 submission));;
  mret submission.

End Script.
End predict_clean.

(** ** ml_model/scripts/feature_importance.py *)

Module feature_importance.
Section Script.
Context `{L : Sklearn}.
Variable BASE_DIR : string.

Definition MODEL_PATH : string := os_path_join [BASE_DIR; "model_pipeline.pkl"].
Definition OUT_CSV : string :=
  os_path_join [BASE_DIR; "outputs"; "feature_importance_top20.csv"].

(** The rows of [imp_df], a feature name with its importance. *)
Definition imp_rows := list (string * Q).

(** [pd.DataFrame({"feature": feature_names, "importance": importances})]:
    two arrays, which must be equally long. *)
Definition imp_frame (feature_names : list string) (importances : list Q)
    : result imp_rows :=
  if Nat.eqb (length feature_names) (length importances)
  then Ok (combine feature_names importances)
  else Error "ValueError".

Fixpoint insert_desc (x : string * Q) (l : imp_rows) : imp_rows :=
  match l with
  | [] => [x]
  | y :: l' =>
      if Qle_bool (snd y) (snd x) then x :: y :: l'
      else y :: insert_desc x l'
  end.

(** [.sort_values("importance", ascending=False)].  The order pandas gives
    to rows of equal importance is not fixed by its documentation; here
    they keep their order. *)
Fixpoint sort_values_desc (l : imp_rows) : imp_rows :=
  match l with
  | [] => []
  | x :: l' => insert_desc x (sort_values_desc l')
  end.

(** [.head(n)] on the rows. *)
Definition head (n : nat) (l : imp_rows) : imp_rows := firstn n l.

(** A row may stand before another when its importance is not smaller. *)
Definition desc (a b : string * Q) : Prop := (snd b <= snd a)%Q.

(** The rows as the table that is printed and written. *)
Definition to_frame (l : imp_rows) : DataFrame :=
  {| columns := [("feature", object); ("importance", float64)];
     rows := map (fun p => [CStr (fst p); CFloat (snd p)]) l |}.

Definition as_transformer (s : fitted_step) : result FittedTransformer :=
  match s with
  | FittedT t => Ok t
  | FittedR _ => Error "AttributeError"
  end.

Definition as_regressor (s : fitted_step) : result FittedRegressor :=
  match s with
  | FittedR r => Ok r
  | FittedT _ => Error "AttributeError"
  end.

Definition main : script imp_rows :=
  os_makedirs (os_path_join [BASE_DIR; "outputs"]);;
  print (Text (str_mul "=" 70));;
  print (Text "FEATURE IMPORTANCE - RANDOM FOREST");;
  print (Text (str_mul "=" 70));;
  print (Text ("Loading model: " +:+ MODEL_PATH));;
  pipeline ← joblib_load MODEL_PATH;
  preprocess ← lift (named_steps pipeline "preprocess");
  model ← lift (named_steps pipeline "model");
  feature_names ← lift (result_bind (as_transformer preprocess) get_feature_names_out);
  importances ← lift (result_bind (as_regressor model) (fun r => Ok (feature_importances_ r)));
  imp_df ← lift (result_bind (imp_frame feature_names importances)
                   (fun df => Ok (sort_values_desc df)));
  print (Text "Top 20 important features:");;
  print (Table "imp_df.head(20)" (to_frame (head 20 imp_df)));;
  to_csv (to_frame (head 20 imp_df)) OUT_CSV;;
  print (Text ("Saved CSV: " +:+ OUT_CSV));;
  print (Text "Viva explanation:");;
  print (Text "- Feature importance shows which variables contributed most to predictions.");;
  print (Text "- Helps justify why the model makes decisions (explainability).");;
  print (Text (str_mul "=" 70));;
  mret (head 20 imp_df).

End Script.
End feature_importance.

(** ** tests/check_model_accuracy.py *)

Module check_model_accuracy.
Section Script.
Context `{L : Sklearn}.

Record metrics := mkMetrics { mae : Q; rmse : Q; r2 : Q }.

Definition evaluate (y : Series) (y_pred : list Q) : result metrics :=
  result_bind (mean_absolute_error y y_pred) (fun mae =>
  result_bind (mean_squared_error y y_pred) (fun mse =>
  result_bind (r2_score y y_pred) (fun r2 =>
  Ok {| mae := mae; rmse := np_sqrt mse; r2 := r2 |}))).

(** Lines 19 to 22: the guard on the model file. *)
Definition check_model_exists : script unit :=
  found ← os_path_exists "model_pipeline.pkl";
  if negb found then
    print (Text "Model file not found!");;
    print (Text "Please run: python train_model_clean.py first");;
    exit
  else mret tt.

(** Lines 86 to 194 format and print the numbers computed before them
    (grades, error ranges, a sample of predictions, the fixed description
    of the model); one [Summary] stands for each block. *)
Definition report (val : metrics) : script unit :=
  print (Summary "METRICS INTERPRETATION");;
  print (Number "R2 Score" (r2 val));;
  print (Number "MAE" (mae val));;
  print (Number "RMSE" (rmse val));;
  print (Summary "SAMPLE PREDICTIONS (First 10 from validation set)");;
  print (Summary "ERROR STATISTICS");;
  print (Summary "MODEL INFORMATION");;
  print (Text "ACCURACY VERIFICATION COMPLETE");;
  print (Summary "OVERALL GRADE").

Definition main : script (metrics * metrics) :=
  print (Text (str_mul "=" 70));;
  print (Text "MODEL ACCURACY VERIFICATION");;
  print (Text (str_mul "=" 70));;
  check_model_exists;;
  print (Text "Model file found: model_pipeline.pkl");;
  print (Summary "Size");;
  print (Text "Loading trained model...");;
  model ← joblib_load "model_pipeline.pkl";
  print (Text "Model loaded successfully!");;
  print (Text "Loading data...");;
  df ← pd_read_csv "data/data.csv";
  print (Shape "Data loaded" (len df) (length (columns df)));;
  X ← lift (PandasOps.drop ["price"; "index"] df);
  y ← lift (PandasOps.getitem "price" df);
  print (Shape "Dataset Information" (len X) (length (columns X)));;
  '(X_train, X_val, y_train, y_val) ← lift (train_test_split X y 0.2%Q 42);
  print (Count "Training samples" (len X_train));;
  print (Count "Validation samples" (len X_val));;
  print (Text "Generating predictions...");;
  y_pred_train ← lift (Pipeline_predict model X_train);
  y_pred_val ← lift (Pipeline_predict model X_val);
  print (Text "Predictions generated!");;
  print (Text "MODEL PERFORMANCE METRICS");;
  train ← lift (evaluate y_train y_pred_train);
  print (Text "TRAINING SET PERFORMANCE:");;
  print (Number "MAE" (mae train));;
  print (Number "RMSE" (rmse train));;
  print (Number "R2 Score" (r2 train));;
  val ← lift (evaluate y_val y_pred_val);
  print (Text "VALIDATION SET PERFORMANCE (Main Metric):");;
  print (Number "MAE" (mae val));;
  print (Number "RMSE" (rmse val));;
  print (Number "R2 Score" (r2 val));;
  report val;;
  mret (train, val).

End Script.
End check_model_accuracy.

(** ** tests/demo_predict_one.py *)

Module demo_predict_one.
Section Script.
Context `{L : Sklearn}.
Variable BASE_DIR : string.

Definition MODEL_PATH : string := os_path_join [BASE_DIR; "model_pipeline.pkl"].
Definition DATA_PATH : string := os_path_join [BASE_DIR; "data"; "data.csv"].

(** [df.iloc[[0]]]: the first row, [IndexError] on an empty table. *)
Definition first_row (df : DataFrame) : result DataFrame :=
  match rows df with
  | [] => Error "IndexError"
  | r :: _ => Ok {| columns := columns df; rows := [r] |}
  end.

(** [model.predict(sample)[0]] *)
Definition first (preds : list Q) : result Q :=
  match preds with
  | [] => Error "IndexError"
  | p :: _ => Ok p
  end.

Definition main : script Q :=
  print (Text (str_mul "=" 70));;
  print (Text "DEMO: PREDICT ONE PROPERTY");;
  print (Text (str_mul "=" 70));;
  model ← joblib_load MODEL_PATH;
  df ← pd_read_csv DATA_PATH;
  sample ← lift (result_bind (PandasOps.drop ["price"] df) first_row);
  sample ← (if has_column "index" sample
            then lift (PandasOps.drop ["index"] sample)
            else mret sample);
  print (Text "Sample input row (1 property):");;
  print (Table "sample" sample);;
  pred ← lift (result_bind (Pipeline_predict model sample) first);
  print (Number "Predicted price" pred);;
  print (Text "Viva explanation:");;
  print (Text "- This demo predicts for one input property.");;
  print (Text "- Uses saved pipeline so preprocessing + model are applied automatically.");;
  print (Text (str_mul "=" 70));;
  mret pred.

End Script.
End demo_predict_one.

(** [for x in l: body(x)] *)
Fixpoint for_each `{L : Sklearn} {A} (l : list A) (body : A -> script unit)
    : script unit :=
  match l with
  | [] => mret tt
  | x :: l' => body x;; for_each l' body
  end.

(** In the four analysis scripts below, the statistics and figures computed
    from the table (summaries, histograms, correlations, quantiles) are
    library calls whose values are not followed: a [Summary] print, a
    [savefig] or a [save_artifact] records each. *)

(** ** ml_model/scripts/eda_clean.py *)

Module eda_clean.
Section Script.
Context `{L : Sklearn}.

Definition main : script unit :=
  df ← pd_read_csv "data/data.csv";
  print (Text "First 5 rows:");;
  print (Table "df.head()" (PandasOps.head 5 df));;
  print (Text "Dataset shape:");;
  print (Shape "df.shape" (len df) (length (columns df)));;
  print (Text "Column names:");;
  print (Names "list(df.columns)" (column_names df));;
  print (Text "Missing values:");;
  print (Summary "df.isna().sum()");;
  print (Text "Data types:");;
  print (Summary "df.dtypes");;
  print (Text "Statistical summary:");;
  print (Summary "df.describe(include='all')").

End Script.
End eda_clean.

(** ** ml_model/scripts/find_target_clean.py *)

Module find_target_clean.
Section Script.
Context `{L : Sklearn}.

Definition target_cols (train_df test_df : DataFrame) : list string :=
  List.filter (fun c => negb (mem c (column_names test_df))) (column_names train_df).

Definition main : script (list string) :=
  train_df ← pd_read_csv "data/data.csv";
  test_df ← pd_read_csv "data/test.csv";
  print (Names "Target column found:" (target_cols train_df test_df));;
  match target_cols train_df test_df with
  | TARGET :: _ =>
      print (Text ("Target: " +:+ TARGET));;
      print (Summary "Data type");;
      print (Summary "Unique values");;
      print (Summary "Sample values")
  | [] => print (Text "No target column found.")
  end;;
  mret (target_cols train_df test_df).

End Script.
End find_target_clean.

(** ** ml_model/scripts/plots.py *)

Module plots.
Section Script.
Context `{L : Sklearn}.
Variable BASE_DIR : string.

Definition DATA_PATH : string := os_path_join [BASE_DIR; "data"; "data.csv"].
Definition OUT_DIR : string := os_path_join [BASE_DIR; "outputs"].
Definition TARGET : string := "price".

Definition main : script unit :=
  os_makedirs OUT_DIR;;
  df ← pd_read_csv DATA_PATH;
  df_no_id ← (if has_column "index" df
              then lift (PandasOps.drop ["index"] df)
              else mret df);
  X ← lift (PandasOps.drop [TARGET] df_no_id);
  y ← lift (PandasOps.getitem TARGET df_no_id);
  savefig (os_path_join [OUT_DIR; "01_price_hist.png"]);;
  savefig (os_path_join [OUT_DIR; "02_log_price_hist.png"]);;
  (if has_column "total_area" df_no_id
   then savefig (os_path_join [OUT_DIR; "03_total_area_vs_price.png"])
   else mret tt);;
  (if has_column "district_name" df_no_id
   then savefig (os_path_join [OUT_DIR; "04_price_by_district_boxplot.png"])
   else mret tt);;
  savefig (os_path_join [OUT_DIR; "05_corr_heatmap.png"]);;
  print (Text ("Saved graphs into: " +:+ OUT_DIR));;
  print (Text "Files created:");;
  print (Summary "sorted(os.listdir(OUT_DIR))").

End Script.
End plots.

(** ** tests/eda_report.py *)

Module eda_report.
Section Script.
Context `{L : Sklearn}.

Definition DATA_PATHS_TO_TRY : list string :=
  ["data/train.csv"; "data/train_clean.csv"; "train.csv"; "train_clean.csv"].

Definition TARGET_COL : string := "price".
Definition CATEGORICAL_COLS : list string :=
  ["gas"; "hot_water"; "central_heating"; "extra_area_type_name"; "district_name"].
Definition OUTPUT_DIR : string := "outputs_eda".

(** The loop of [load_data] over the candidate paths, ending in the
    script's own [raise]. *)
Fixpoint load_data_from (paths : list string) : script DataFrame :=
  match paths with
  | [] =>
      raise "FileNotFoundError"
        "Could not find dataset. Put train.csv inside a data/ folder or update DATA_PATHS_TO_TRY."
  | p :: paths' =>
      found ← os_path_exists p;
      if (found : bool) then
        print (Text ("Loaded dataset: " +:+ p));;
        pd_read_csv p
      else load_data_from paths'
  end.

Definition load_data : script DataFrame := load_data_from DATA_PATHS_TO_TRY.

Definition save_table (filename : string) : script unit :=
  save_artifact (os_path_join [OUTPUT_DIR; filename]);;
  print (Text ("Saved: " +:+ os_path_join [OUTPUT_DIR; filename])).

Definition fig (filename : string) : script unit :=
  savefig (os_path_join [OUTPUT_DIR; filename]).

Definition main : script unit :=
  os_makedirs OUTPUT_DIR;;
  df ← load_data;
  save_table "dataset_summary.csv";;
  save_table "missing_values.csv";;
  save_table "duplicates.csv";;
  (if has_column TARGET_COL df then
     fig "price_hist_raw.png";;
     save_table "price_skewness.csv";;
     fig "price_hist_log1p.png"
   else mret tt);;
  (if mem TARGET_COL (PandasOps.number_columns df) then
     fig "correlation_heatmap.png";;
     save_table "correlation_matrix.csv"
   else mret tt);;
  for_each CATEGORICAL_COLS (fun col =>
    if has_column col df then
      save_table ("value_counts_" +:+ col +:+ ".csv");;
      fig ("top10_" +:+ col +:+ ".png")
    else mret tt);;
  for_each ["total_area"; "kitchen_area"; "bath_area"] (fun area_col =>
    if has_column area_col df && has_column TARGET_COL df then
      save_table ("percentiles_" +:+ area_col +:+ ".csv");;
      fig ("scatter_" +:+ area_col +:+ "_vs_price.png")
    else mret tt);;
  print (Text ("DONE. All EDA outputs saved in: " +:+ OUTPUT_DIR +:+ "/")).

End Script.
End eda_report.

(** ** What runs do to the outside *)

Section Observations.
Context `{L : Sklearn}.

(** A failure the script makes itself: it exits early, or raises an
    exception written in its own text. *)
Definition own_failure {A} (o : outcome A) : Prop :=
  match o with
  | Exited => True
  | Raised (ScriptError _ _) => True
  | _ => False
  end.

(** A script that only lets library exceptions through. *)
Definition propagates_only {A} (m : script A) : Prop :=
  forall w, ~ own_failure (fst (m w)).

Definition is_read_csv (e : event) : bool :=
  match e with ReadCsv _ => true | _ => false end.

Definition is_load_model (e : event) : bool :=
  match e with LoadModel _ => true | _ => false end.

Definition is_print (e : event) : bool :=
  match e with Print _ => true | _ => false end.

Definition is_write (e : event) : bool :=
  match e with
  | WriteCsv _ | DumpModel _ | SaveFig _ => true
  | _ => false
  end.

(** Any event at all. *)
Definition anything (e : event) : bool := true.

(** Anything but reading a CSV. *)
Definition not_read_csv (e : event) : bool := negb (is_read_csv e).

(** Printing or writing a result. *)
Definition is_output (e : event) : bool := is_print e || is_write e.

(** Every run of [m] that returns adds events [evs] to the log with
    [P evs]. *)
Definition adds {A} (m : script A) (P : list event -> Prop) : Prop :=
  forall w a w',
    m w = (Returned a, w') -> exists evs, log w' = log w ++ evs /\ P evs.

(** A returning run does something of kind [f]. *)
Definition emits {A} (f : event -> bool) (m : script A) : Prop :=
  adds m (fun evs => existsb f evs = true).

(** A returning run does nothing but things of kind [f]. *)
Definition only_emits {A} (f : event -> bool) (m : script A) : Prop :=
  adds m (fun evs => forallb f evs = true).

(** A script that leaves every file as it found it. *)
Definition keeps_files {A} (m : script A) : Prop :=
  forall w, fs (snd (m w)) = fs w.

(** A script that leaves the files at the paths satisfying [keep] as it
    found them. *)
Definition preserves {A} (keep : string -> bool) (m : script A) : Prop :=
  forall w p, keep p = true -> fs (snd (m w)) !! p = fs w !! p.

End Observations.

(** ** The pipeline as the spec describes it *)

Module Spec.
Section Spec.
Context `{L : Sklearn}.

(** How the exception of a library call reaches the console when nothing
    handles it. *)
Definition outcome_of {A} (r : result A) : outcome A :=
  match r with
  | Ok a => Returned a
  | Error e => Raised (LibraryError e)
  end.

(** Follows the spec: the train/validate pipeline is the fixed sequence of
    library calls split, fit, transform, predict, score, on the features
    and the target, with 400 trees, median imputation, an 80/20 split and
    seed 42. *)
Definition split_fit_transform_predict_score (X : DataFrame) (y : Series)
    : result train_model_clean.metrics :=
  (* split *)
  result_bind (train_test_split X y 0.2%Q 42)
    (fun '(X_train, X_val, y_train, y_val) =>
  (* fit *)
  result_bind (fit_transform (train_model_clean.preprocessor X) X_train y_train)
    (fun '(ft, Xt) =>
  result_bind (fit_regressor (RandomForestRegressor 400 42 (-1)) Xt y_train)
    (fun fr =>
  (* transform *)
  result_bind (transform ft X_val) (fun Xv =>
  (* predict *)
  result_bind (predict_regressor fr Xv) (fun y_pred =>
  (* score *)
  result_bind (mean_absolute_error y_val y_pred) (fun mae =>
  result_bind (mean_squared_error y_val y_pred) (fun mse =>
  result_bind (r2_score y_val y_pred) (fun r2 =>
  Ok {| train_model_clean.mae := mae;
        train_model_clean.rmse := np_sqrt mse;
        train_model_clean.r2 := r2 |})))))))).

(** Follows the spec: "load a CSV; drop named columns; call a library's
    predict function; write a CSV", with no branch: the [index] column is
    kept for the submission and dropped from the features. *)
Definition drop_transform_predict (model : FittedPipeline)
    (test_df : DataFrame) : result DataFrame :=
  result_bind (PandasOps.getitem "index" test_df) (fun submission_index =>
  result_bind (PandasOps.drop ["index"] test_df) (fun X_test =>
  result_bind (Pipeline_predict model X_test) (fun predictions =>
  PandasOps.frame_of_series_and_array
    "index" submission_index "price" predictions))).

(** The other straight line: nothing is dropped, and the rows are numbered
    from zero. *)
Definition transform_predict (model : FittedPipeline) (test_df : DataFrame)
    : result DataFrame :=
  result_bind (Pipeline_predict model test_df) (fun predictions =>
  PandasOps.frame_of_series_and_array
    "index" (PandasOps.range_series "index" (len test_df))
    "price" predictions).

End Spec.
End Spec.

(** ** A small executable instance of the library

    Enough of a library to run the scripts on concrete worlds: the split is
    the first [ceil(test_size * n)] positions against the rest, a fitted
    transformer remembers the columns it saw and refuses a table that lacks
    one of them, and the regressor predicts the width of each row. *)

Module Reference.

Definition split (n : nat) (test_size : Q) (random_state : Z)
    : result (list nat * list nat) :=
  let n_test := Z.to_nat (Qceiling (test_size * inject_Z (Z.of_nat n))) in
  if (n_test =? 0)%nat || (n <=? n_test)%nat then Error "ValueError"
  else Ok (seq n_test (n - n_test), seq 0 n_test).

Definition fit_columns (e : estimator) (X : DataFrame) (y : Series)
    : result (list string * list (list cell)) :=
  Ok (column_names X, rows X).

Definition apply_columns (seen : list string) (X : DataFrame)
    : result (list (list cell)) :=
  if forallb (fun c => has_column c X) seen then Ok (rows X)
  else Error "ValueError".

Definition score (y : Series) (y_pred : list Q) : result Q :=
  if Nat.eqb (length (values y)) (length y_pred)
  then Ok (inject_Z (Z.of_nat (length y_pred)))
  else Error "ValueError".

Definition total (l : list Q) : Q := fold_right Qplus 0%Q l.

#[export] Instance lib : Sklearn := {|
  FittedTransformer := list string;
  FittedRegressor := list Q;
  Matrix := list (list cell);
  shuffle_split := split;
  fit_transform := fit_columns;
  transform := apply_columns;
  fit_regressor := fun _ Xt _ => Ok [(3 # 10)%Q; (7 # 10)%Q];
  predict_regressor := fun _ Xt =>
    Ok (map (fun r => inject_Z (Z.of_nat (length r))) Xt);
  mean_absolute_error := score;
  mean_squared_error := score;
  r2_score := score;
  np_sqrt := fun q => q;
  cross_val_score := fun _ X _ _ _ => Ok [0%Q; 0%Q; 0%Q; 0%Q; 0%Q];
  np_mean := total;
  np_std := fun _ => 0%Q;
  get_feature_names_out := fun seen => Ok seen;
  feature_importances_ := fun imps => imps
|}.

(** A training table of five flats and a test table of two. *)
Definition data : DataFrame :=
  {| columns := [("index", int64); ("total_area", float64);
                 ("district_name", object); ("price", float64)];
     rows := [[CInt 0; CFloat 40; CStr "Centralnyj"; CFloat 5000000];
              [CInt 1; CFloat 55; CStr "Kirovskij"; CFloat 6100000];
              [CInt 2; NaN; CStr "Centralnyj"; CFloat 4800000];
              [CInt 3; CFloat 72; NaN; CFloat 9000000];
              [CInt 4; CFloat 33; CStr "Kirovskij"; CFloat 3900000]] |}.

Definition test : DataFrame :=
  {| columns := [("index", int64); ("total_area", float64);
                 ("district_name", object)];
     rows := [[CInt 10; CFloat 61; CStr "Kirovskij"];
              [CInt 11; CFloat 47; CStr "Centralnyj"]] |}.

(** The same test table without its [index] column. *)
Definition test_no_index : DataFrame :=
  {| columns := [("total_area", float64); ("district_name", object)];
     rows := [[CFloat 61; CStr "Kirovskij"];
              [CFloat 47; CStr "Centralnyj"]] |}.

Definition empty_world : world := {| fs := ∅; log := [] |}.

Definition with_file (path : string) (f : file) (w : world) : world :=
  {| fs := <[path := f]> (fs w); log := log w |}.

(** A directory holding the two CSV files only. *)
Definition fresh : world :=
  with_file "data/test.csv" (CsvFile test)
    (with_file "data/data.csv" (CsvFile data) empty_world).

(** The directory after the training script has run in it. *)
Definition trained_world : world := snd (train_model_clean.main fresh).

(** The same directory with the test table that has no [index] column. *)
Definition trained_world_no_index : world :=
  with_file "data/test.csv" (CsvFile test_no_index) trained_world.

(** A directory holding only a saved pipeline. *)
Definition model_only : world :=
  with_file "model_pipeline.pkl"
    (PickleFile [("preprocess", FittedT ["total_area"; "district_name"]);
                 ("model", FittedR [(3 # 10)%Q; (7 # 10)%Q])])
    empty_world.

(** A directory whose training table has neither [price] nor [index]. *)
Definition headless : world :=
  with_file "data/data.csv" (CsvFile test_no_index) empty_world.

(** A directory holding the training table under the third name the EDA
    report tries. *)
Definition third_candidate : world :=
  with_file "train.csv" (CsvFile data) empty_world.

(** The training table with its rows numbered from 100. *)
Definition data_renumbered : DataFrame :=
  {| columns := [("index", int64); ("total_area", float64);
                 ("district_name", object); ("price", float64)];
     rows := [[CInt 100; CFloat 40; CStr "Centralnyj"; CFloat 5000000];
              [CInt 101; CFloat 55; CStr "Kirovskij"; CFloat 6100000];
              [CInt 102; NaN; CStr "Centralnyj"; CFloat 4800000];
              [CInt 103; CFloat 72; NaN; CFloat 9000000];
              [CInt 104; CFloat 33; CStr "Kirovskij"; CFloat 3900000]] |}.

Definition fresh_renumbered : world :=
  with_file "data/data.csv" (CsvFile data_renumbered) empty_world.

(** The pipeline the training script leaves behind in [fresh]. *)
Definition fitted : FittedPipeline :=
  [("preprocess", FittedT ["total_area"; "district_name"]);
   ("model", FittedR [(3 # 10)%Q; (7 # 10)%Q])].

End Reference.


(** ** Runs of the training and prediction scripts, step by step *)

Section RunRecords.
Context `{L : Sklearn}.

(** The values a run of the training script goes through. *)
Record training := mkTraining {
  t_df : DataFrame;
  t_X : DataFrame;
  t_y : Series;
  t_train : list nat;
  t_test : list nat;
  t_ft : FittedTransformer;
  t_Xt : Matrix;
  t_fr : FittedRegressor;
  t_Xv : Matrix;
  t_y_pred : list Q
}.

Definition t_X_train (t : training) : DataFrame := PandasOps.iloc (t_train t) (t_X t).
Definition t_X_val (t : training) : DataFrame := PandasOps.iloc (t_test t) (t_X t).
Definition t_y_train (t : training) : Series := PandasOps.iloc_series (t_train t) (t_y t).
Definition t_y_val (t : training) : Series := PandasOps.iloc_series (t_test t) (t_y t).
Definition t_fitted (t : training) : FittedPipeline :=
  [("preprocess", FittedT (t_ft t)); ("model", FittedR (t_fr t))].

(** Each step of the script succeeded with these values. *)
Record trained (w : world) (t : training) (m : train_model_clean.metrics) : Prop := {
  tr_file : fs w !! "data/data.csv" = Some (CsvFile (t_df t));
  tr_drop : PandasOps.drop ["price"; "index"] (t_df t) = Ok (t_X t);
  tr_target : PandasOps.getitem "price" (t_df t) = Ok (t_y t);
  tr_split : shuffle_split (len (t_X t)) 0.2%Q 42 = Ok (t_train t, t_test t);
  tr_fit_pre : fit_transform (train_model_clean.preprocessor (t_X t))
                 (t_X_train t) (t_y_train t) = Ok (t_ft t, t_Xt t);
  tr_fit_model : fit_regressor (RandomForestRegressor 400 42 (-1))
                   (t_Xt t) (t_y_train t) = Ok (t_fr t);
  tr_transform : transform (t_ft t) (t_X_val t) = Ok (t_Xv t);
  tr_predict : predict_regressor (t_fr t) (t_Xv t) = Ok (t_y_pred t);
  tr_score : train_model_clean.evaluate (t_y_val t) (t_y_pred t) = Ok m
}.

(** The events of a successful run of the training script. *)
Definition train_events (t : training) (m : train_model_clean.metrics)
    : list event :=
  [ReadCsv "data/data.csv";
   Print (Names "Numerical features" (train_model_clean.num_cols (t_X t)));
   Print (Names "Categorical features" (train_model_clean.cat_cols (t_X t)));
   Print (Count "Training samples" (len (t_X_train t)));
   Print (Count "Validation samples" (len (t_X_val t)));
   Print (Text "Training model...");
   Print (Text "Training complete!");
   Print (Text "=== MODEL PERFORMANCE ===");
   Print (Number "MAE" (train_model_clean.mae m));
   Print (Number "RMSE" (train_model_clean.rmse m));
   Print (Number "R2" (train_model_clean.r2 m));
   DumpModel "model_pipeline.pkl";
   Print (Text "Model saved to: model_pipeline.pkl");
   Print (Text "Model size: ~2.9 GB");
   Print (Text "Ready for predictions!")].

(** The events of a successful run of the prediction script. *)
Definition predict_events (test_df : DataFrame) (preds : list Q)
    (sub : DataFrame) : list event :=
  [LoadModel "model_pipeline.pkl";
   Print (Text "Model loaded");
   ReadCsv "data/test.csv";
   Print (Shape "Test data shape" (len test_df) (length (columns test_df)));
   Print (Count "Generated predictions" (length preds));
   WriteCsv "submission.csv";
   Print (Text "Submission saved to: submission.csv");
   Print (Text "Sample predictions:");
   Print (Table "submission.head(10)" (PandasOps.head 10 sub))].

(** The values a run of the accuracy check goes through. *)
Record checking := mkChecking {
  c_model : FittedPipeline;
  c_df : DataFrame;
  c_X : DataFrame;
  c_y : Series;
  c_train : list nat;
  c_test : list nat;
  c_pred_train : list Q;
  c_pred_val : list Q
}.

Definition c_X_train (c : checking) : DataFrame := PandasOps.iloc (c_train c) (c_X c).
Definition c_X_val (c : checking) : DataFrame := PandasOps.iloc (c_test c) (c_X c).
Definition c_y_train (c : checking) : Series := PandasOps.iloc_series (c_train c) (c_y c).
Definition c_y_val (c : checking) : Series := PandasOps.iloc_series (c_test c) (c_y c).

(** Each step of the accuracy check succeeded with these values. *)
Record checked (w : world) (c : checking)
    (r : check_model_accuracy.metrics * check_model_accuracy.metrics) : Prop := {
  ck_model : fs w !! "model_pipeline.pkl" = Some (PickleFile (c_model c));
  ck_file : fs w !! "data/data.csv" = Some (CsvFile (c_df c));
  ck_drop : PandasOps.drop ["price"; "index"] (c_df c) = Ok (c_X c);
  ck_target : PandasOps.getitem "price" (c_df c) = Ok (c_y c);
  ck_split : train_test_split (c_X c) (c_y c) 0.2%Q 42
             = Ok (c_X_train c, c_X_val c, c_y_train c, c_y_val c);
  ck_indices : shuffle_split (len (c_X c)) 0.2%Q 42 = Ok (c_train c, c_test c);
  ck_pred_train : Pipeline_predict (c_model c) (c_X_train c) = Ok (c_pred_train c);
  ck_pred_val : Pipeline_predict (c_model c) (c_X_val c) = Ok (c_pred_val c);
  ck_score_train : check_model_accuracy.evaluate (c_y_train c) (c_pred_train c)
                   = Ok (fst r);
  ck_score_val : check_model_accuracy.evaluate (c_y_val c) (c_pred_val c)
                 = Ok (snd r)
}.

(** What the splitter promises: no position is both a training and a test
    position. *)
Definition split_is_disjoint : Prop :=
  forall n test_size random_state train test,
    shuffle_split n test_size random_state = Ok (train, test) ->
    forall i, In i test -> ~ In i train.

(** What the spec says of the library: a fitted transformer raises on a
    table that lacks a column it was fit on. *)
Definition raises_on_missing_column : Prop :=
  forall pre X y ft Xt X' c,
    fit_transform pre X y = Ok (ft, Xt) ->
    In c (column_names X) -> ~ In c (column_names X') ->
    exists e, transform ft X' = Error e.

(** And on a table with the columns it was fit on, the fitted pipeline
    predicts one value per row. *)
Definition predicts_on_matching_columns : Prop :=
  forall pre reg X y ft Xt fr X',
    fit_transform pre X y = Ok (ft, Xt) ->
    fit_regressor reg Xt y = Ok fr ->
    columns X' = columns X ->
    exists Xt' preds,
      transform ft X' = Ok Xt' /\ predict_regressor fr Xt' = Ok preds /\
      length preds = len X'.

(** The events of a run of the prediction script that stops at
    [model.predict]. *)
Definition predict_events_before_predict (test_df : DataFrame) : list event :=
  [LoadModel "model_pipeline.pkl";
   Print (Text "Model loaded");
   ReadCsv "data/test.csv";
   Print (Shape "Test data shape" (len test_df) (length (columns test_df)))].

(** What the splitter promises besides: the training and the test
    positions together are the positions of the rows, each once. *)
Definition split_is_partition : Prop :=
  forall n test_size random_state train test,
    shuffle_split n test_size random_state = Ok (train, test) ->
    Permutation (train ++ test) (seq 0 n).

(** The figures [plots.py] saves for a table, in order. *)
Definition plots_figures (BASE_DIR : string) (df : DataFrame) : list string :=
  [os_path_join [plots.OUT_DIR BASE_DIR; "01_price_hist.png"];
   os_path_join [plots.OUT_DIR BASE_DIR; "02_log_price_hist.png"]] ++
  (if has_column "total_area" df
   then [os_path_join [plots.OUT_DIR BASE_DIR; "03_total_area_vs_price.png"]]
   else []) ++
  (if has_column "district_name" df
   then [os_path_join [plots.OUT_DIR BASE_DIR; "04_price_by_district_boxplot.png"]]
   else []) ++
  [os_path_join [plots.OUT_DIR BASE_DIR; "05_corr_heatmap.png"]].

(** The five paths [plots.py] can write to. *)
Definition plots_outputs (BASE_DIR : string) : list string :=
  [os_path_join [plots.OUT_DIR BASE_DIR; "01_price_hist.png"];
   os_path_join [plots.OUT_DIR BASE_DIR; "02_log_price_hist.png"];
   os_path_join [plots.OUT_DIR BASE_DIR; "03_total_area_vs_price.png"];
   os_path_join [plots.OUT_DIR BASE_DIR; "04_price_by_district_boxplot.png"];
   os_path_join [plots.OUT_DIR BASE_DIR; "05_corr_heatmap.png"]].

(** The row [demo_predict_one.py] predicts on: the first row of the table
    without [price], and without [index] when there is one. *)
Definition demo_sample (df : DataFrame) (r : list cell) : DataFrame :=
  let no_price := select (fun c => negb (mem c ["price"])) df in
  if has_column "index" no_price
  then select (fun c => negb (mem c ["index"]))
         {| columns := columns no_price;
            rows := [project (fun c => negb (mem c ["price"])) (columns df) r] |}
  else {| columns := columns no_price;
          rows := [project (fun c => negb (mem c ["price"])) (columns df) r] |}.

(** What the accuracy check prints before it exits for want of a model. *)
Definition check_exit_events : list event :=
  [Print (Text (str_mul "=" 70));
   Print (Text "MODEL ACCURACY VERIFICATION");
   Print (Text (str_mul "=" 70));
   Print (Text "Model file not found!");
   Print (Text "Please run: python train_model_clean.py first")].

(** The exception [load_data] raises itself. *)
Definition dataset_not_found : exn :=
  ScriptError "FileNotFoundError"
    "Could not find dataset. Put train.csv inside a data/ folder or update DATA_PATHS_TO_TRY.".

(** What the cross-validation script prints before it reads its data. *)
Definition validate_cv_banner (BASE_DIR : string) : list event :=
  [Print (Text (str_mul "=" 70));
   Print (Text "CROSS VALIDATION (5-FOLD) - REAL ESTATE PRICE PREDICTION");
   Print (Text (str_mul "=" 70));
   Print (Text ("Loading: " +:+ validate_cv.DATA_PATH BASE_DIR))].

End RunRecords.

(** * Reasoning about runs *)

Section Runs.
Context `{L : Sklearn}.

Lemma bind_returned {A B} (m : script A) (k : A -> script B) w b w' :
  bind m k w = (Returned b, w') ->
  exists a w1, m w = (Returned a, w1) /\ k a w1 = (Returned b, w').
Proof.
  unfold bind. destruct (m w) as [[a|e|] w1]; intros H; try discriminate.
  exists a, w1. auto.
Qed.

Lemma ret_returned {A} (a b : A) w w' :
  ret a w = (Returned b, w') -> b = a /\ w' = w.
Proof. unfold ret. intros H. injection H as <- <-. auto. Qed.

Lemma lift_returned {A} (r : result A) a w w' :
  lift r w = (Returned a, w') -> r = Ok a /\ w' = w.
Proof.
  unfold lift. destruct r; intros H; try discriminate.
  injection H as <- <-. auto.
Qed.

Lemma emit_returned e u w w' :
  emit e w = (Returned u, w') -> w' = {| fs := fs w; log := log w ++ [e] |}.
Proof. unfold emit. intros H. injection H as _ <-. reflexivity. Qed.

Lemma write_returned path f e u w w' :
  write path f e w = (Returned u, w') ->
  w' = {| fs := <[path := f]> (fs w); log := log w ++ [e] |}.
Proof. unfold write. intros H. injection H as _ <-. reflexivity. Qed.

Lemma pd_read_csv_returned path df w w' :
  pd_read_csv path w = (Returned df, w') ->
  fs w !! path = Some (CsvFile df) /\
  w' = {| fs := fs w; log := log w ++ [ReadCsv path] |}.
Proof.
  unfold pd_read_csv. destruct (fs w !! path) as [[d|m|]|]; intros H;
    try discriminate.
  injection H as <- <-. auto.
Qed.

Lemma joblib_load_returned path m w w' :
  joblib_load path w = (Returned m, w') ->
  fs w !! path = Some (PickleFile m) /\
  w' = {| fs := fs w; log := log w ++ [LoadModel path] |}.
Proof.
  unfold joblib_load. destruct (fs w !! path) as [[d|m'|]|]; intros H;
    try discriminate.
  injection H as <- <-. auto.
Qed.

Lemma os_path_exists_returned path b w w' :
  os_path_exists path w = (Returned b, w') ->
  b = bool_decide (is_Some (fs w !! path)) /\ w' = w.
Proof. unfold os_path_exists. intros H. injection H as <- <-. auto. Qed.

End Runs.

(** Take a successful run apart, one statement at a time. *)
Ltac unfold_bind H :=
  unfold mbind, script_bind, mret, script_ret, print, to_csv, joblib_dump,
    savefig, save_artifact, os_makedirs in H.

Ltac run_step H :=
  match type of H with
  | bind _ _ _ = (Returned _, _) =>
      let a := fresh "a" in
      let w := fresh "w" in
      let H1 := fresh "Hrun" in
      apply bind_returned in H; destruct H as (a & w & H1 & H);
      run_step H1
  | ret _ _ = (Returned _, _) =>
      apply ret_returned in H; destruct H as [? ?]; subst
  | lift _ _ = (Returned _, _) =>
      let E := fresh "Hcall" in
      apply lift_returned in H; destruct H as [E ?]; subst
  | emit _ _ = (Returned _, _) => apply emit_returned in H; subst
  | write _ _ _ _ = (Returned _, _) => apply write_returned in H; subst
  | pd_read_csv _ _ = (Returned _, _) =>
      let E := fresh "Hfile" in
      apply pd_read_csv_returned in H; destruct H as [E ?]; subst
  | joblib_load _ _ = (Returned _, _) =>
      let E := fresh "Hfile" in
      apply joblib_load_returned in H; destruct H as [E ?]; subst
  | os_path_exists _ _ = (Returned _, _) =>
      apply os_path_exists_returned in H; destruct H as [? ?]; subst
  | (let '(_, _) := ?p in _) _ = (Returned _, _) => destruct p
  | _ => idtac
  end.

Ltac run H :=
  unfold_bind H; repeat (progress (run_step H; cbn [fs log] in * )).

(** * Facts about the table operations *)

Section TableFacts.

Lemma mem_In (c : string) (l : list string) : mem c l = true <-> In c l.
Proof.
  unfold mem. rewrite existsb_exists. split.
  - intros (x & Hx & Heq). apply String.eqb_eq in Heq. now subst.
  - intros H. exists c. split; [assumption | apply String.eqb_refl].
Qed.

Lemma mem_false (c : string) (l : list string) : mem c l = false <-> ~ In c l.
Proof.
  rewrite <- mem_In. destruct (mem c l); intuition congruence.
Qed.

Lemma has_column_In (c : string) (df : DataFrame) :
  has_column c df = true <-> In c (column_names df).
Proof. apply mem_In. Qed.

Lemma position_Some (c : string) (cols : list (string * dtype)) :
  In c (map fst cols) -> exists i, position c cols = Some i.
Proof.
  induction cols as [|[c' d] cols IH]; simpl; [tauto|].
  intros [Heq | Hin].
  - subst. rewrite String.eqb_refl. eauto.
  - destruct (String.eqb c c'); [eauto|].
    destruct (IH Hin) as [i ->]. simpl. eauto.
Qed.

Lemma position_None (c : string) (cols : list (string * dtype)) :
  ~ In c (map fst cols) -> position c cols = None.
Proof.
  induction cols as [|[c' d] cols IH]; simpl; [reflexivity|].
  intros H. destruct (String.eqb_spec c c') as [->|Hne]; [tauto|].
  rewrite IH; [reflexivity | tauto].
Qed.

(** [df[label]] succeeds exactly on a column of the table, and gives one
    value per row. *)
Lemma getitem_has_column (c : string) (df : DataFrame) :
  has_column c df = true ->
  exists s, PandasOps.getitem c df = Ok s /\ name s = c /\
            length (values s) = len df.
Proof.
  intros H. apply has_column_In in H.
  destruct (position_Some c (columns df) H) as [i Hi].
  unfold PandasOps.getitem. rewrite Hi. eexists. split; [reflexivity|].
  split; [reflexivity|]. simpl. unfold len. now rewrite length_map.
Qed.

Lemma getitem_missing (c : string) (df : DataFrame) :
  has_column c df = false -> PandasOps.getitem c df = Error "KeyError".
Proof.
  intros H. unfold PandasOps.getitem. rewrite position_None; [reflexivity|].
  intros Hin.
  assert (has_column c df = true) by (apply has_column_In; exact Hin).
  congruence.
Qed.

Lemma select_len keep (df : DataFrame) : len (select keep df) = len df.
Proof. unfold len, select. simpl. apply length_map. Qed.

Lemma select_column_names keep (df : DataFrame) :
  column_names (select keep df) = List.filter keep (column_names df).
Proof.
  unfold column_names, select. simpl.
  induction (columns df) as [|[c d] cols IH]; simpl; [reflexivity|].
  destruct (keep c); simpl; [f_equal|]; exact IH.
Qed.

(** [drop] keeps every row and exactly the columns not named. *)
Lemma drop_Ok (labels : list string) (df X : DataFrame) :
  PandasOps.drop labels df = Ok X ->
  Forall (fun l => has_column l df = true) labels /\
  len X = len df /\
  column_names X = List.filter (fun c => negb (mem c labels)) (column_names df).
Proof.
  unfold PandasOps.drop.
  destruct (forallb _ labels) eqn:Hall; intros H; [|discriminate].
  injection H as <-. split.
  - apply List.Forall_forall. rewrite forallb_forall in Hall. exact Hall.
  - split; [apply select_len | apply select_column_names].
Qed.

Lemma drop_present (labels : list string) (df : DataFrame) :
  Forall (fun l => has_column l df = true) labels ->
  PandasOps.drop labels df = Ok (select (fun c => negb (mem c labels)) df).
Proof.
  intros H. unfold PandasOps.drop.
  assert (forallb (fun l => has_column l df) labels = true) as ->; [|reflexivity].
  apply forallb_forall. now apply List.Forall_forall.
Qed.

Lemma drop_missing (labels : list string) (df : DataFrame) (l : string) :
  In l labels -> has_column l df = false ->
  PandasOps.drop labels df = Error "KeyError".
Proof.
  intros Hin Hno. unfold PandasOps.drop.
  destruct (forallb _ labels) eqn:Hall; [|reflexivity].
  rewrite forallb_forall in Hall. apply Hall in Hin. congruence.
Qed.

Lemma dropped_gone (labels : list string) (df X : DataFrame) (l : string) :
  PandasOps.drop labels df = Ok X -> In l labels -> has_column l X = false.
Proof.
  intros H Hin. apply drop_Ok in H as (_ & _ & Hcols).
  destruct (has_column l X) eqn:E; [|reflexivity].
  apply has_column_In in E. rewrite Hcols in E.
  apply filter_In in E as [_ E].
  apply negb_true_iff, mem_false in E. tauto.
Qed.

End TableFacts.

(** * The batch-prediction script *)

Section PredictFacts.
Context `{L : Sklearn}.

Lemma prepare_with_index (test_df : DataFrame) :
  has_column "index" test_df = true ->
  exists idx X_test,
    predict_clean.prepare test_df = Ok (idx, X_test) /\
    PandasOps.getitem "index" test_df = Ok idx /\
    PandasOps.drop ["index"] test_df = Ok X_test.
Proof.
  intros H. unfold predict_clean.prepare. rewrite H.
  destruct (getitem_has_column _ _ H) as (idx & -> & _).
  rewrite (drop_present ["index"] test_df) by (repeat constructor; exact H).
  simpl. eauto.
Qed.

Lemma prepare_without_index (test_df : DataFrame) :
  has_column "index" test_df = false ->
  predict_clean.prepare test_df =
    Ok (PandasOps.range_series "index" (len test_df), test_df).
Proof. intros H. unfold predict_clean.prepare. now rewrite H. Qed.

(** Whatever the test table, STEP 3 yields one index value per row and
    features with as many rows and no [index] column. *)
Lemma prepare_shape (test_df : DataFrame) (idx : Series) (X_test : DataFrame) :
  predict_clean.prepare test_df = Ok (idx, X_test) ->
  length (values idx) = len test_df /\ len X_test = len test_df /\
  has_column "index" X_test = false.
Proof.
  destruct (has_column "index" test_df) eqn:Hidx.
  - destruct (prepare_with_index _ Hidx) as (i & X & -> & Hget & Hdrop).
    intros [= <- <-].
    destruct (getitem_has_column _ _ Hidx) as (s & Hs & _ & Hlen).
    rewrite Hs in Hget. injection Hget as <-.
    split; [exact Hlen|]. split.
    + now apply drop_Ok in Hdrop.
    + apply (dropped_gone _ _ _ _ Hdrop). now left.
  - rewrite (prepare_without_index _ Hidx). intros [= <- <-].
    split; [|auto]. simpl. now rewrite length_map, length_seq.
Qed.

Lemma prepare_total (test_df : DataFrame) :
  exists idx X_test, predict_clean.prepare test_df = Ok (idx, X_test).
Proof.
  destruct (has_column "index" test_df) eqn:Hidx.
  - destruct (prepare_with_index _ Hidx) as (i & X & H & _). eauto.
  - rewrite (prepare_without_index _ Hidx). eauto.
Qed.

(** The submission table has the two columns [index] and [price] and a row
    for every index value, holding that value and the prediction at the
    same position. *)
Lemma frame_Ok (s : Series) (arr : list Q) :
  length (values s) = length arr ->
  exists sub,
    PandasOps.frame_of_series_and_array "index" s "price" arr = Ok sub /\
    column_names sub = ["index"; "price"] /\
    rows sub = map (fun p => [fst p; CFloat (snd p)]) (combine (values s) arr) /\
    len sub = length arr.
Proof.
  intros H. unfold PandasOps.frame_of_series_and_array.
  rewrite H, Nat.eqb_refl. eexists. split; [reflexivity|].
  split; [reflexivity|]. split; [reflexivity|].
  unfold len. simpl. rewrite length_map, length_combine, H. apply Nat.min_id.
Qed.

Lemma frame_Ok_inv (s : Series) (arr : list Q) (sub : DataFrame) :
  PandasOps.frame_of_series_and_array "index" s "price" arr = Ok sub ->
  length (values s) = length arr.
Proof.
  unfold PandasOps.frame_of_series_and_array.
  destruct (Nat.eqb_spec (length (values s)) (length arr)); [auto | discriminate].
Qed.

Lemma combine_nth_error {A B} (l : list A) (l' : list B) i a b :
  nth_error l i = Some a -> nth_error l' i = Some b ->
  nth_error (combine l l') i = Some (a, b).
Proof.
  revert l' i. induction l as [|x l IH]; intros [|y l'] [|i]; simpl;
    try discriminate; try congruence.
  apply IH.
Qed.

Lemma predict_run (w : world) model test_df idx X_test preds sub :
  fs w !! "model_pipeline.pkl" = Some (PickleFile model) ->
  fs w !! "data/test.csv" = Some (CsvFile test_df) ->
  predict_clean.prepare test_df = Ok (idx, X_test) ->
  Pipeline_predict model X_test = Ok preds ->
  PandasOps.frame_of_series_and_array "index" idx "price" preds = Ok sub ->
  predict_clean.main w =
    (Returned sub,
     {| fs := <["submission.csv" := CsvFile sub]> (fs w);
        log := log w ++ predict_events test_df preds sub |}).
Proof.
  intros Hm Ht Hp Hpred Hsub.
  unfold predict_clean.main, mbind, script_bind, bind, joblib_load,
    pd_read_csv, print, emit, to_csv, write, mret, script_ret, ret.
  cbn [fs log]. rewrite Hm. cbn [fs log]. rewrite Ht, Hp. cbn.
  rewrite Hpred. cbn. rewrite Hsub. cbn.
  unfold predict_events. now rewrite <- !app_assoc.
Qed.

Lemma predict_run_inv (w w' : world) (sub : DataFrame) :
  predict_clean.main w = (Returned sub, w') ->
  exists model test_df idx X_test preds,
    fs w !! "model_pipeline.pkl" = Some (PickleFile model) /\
    fs w !! "data/test.csv" = Some (CsvFile test_df) /\
    predict_clean.prepare test_df = Ok (idx, X_test) /\
    Pipeline_predict model X_test = Ok preds /\
    PandasOps.frame_of_series_and_array "index" idx "price" preds = Ok sub.
Proof.
  intros H. unfold predict_clean.main in H. run H.
  do 5 eexists. repeat split; eassumption.
Qed.

End PredictFacts.

(** * The training script *)

Section TrainFacts.
Context `{L : Sklearn}.

Lemma result_bind_Ok {A B} (r : result A) (k : A -> result B) (b : B) :
  result_bind r k = Ok b -> exists a, r = Ok a /\ k a = Ok b.
Proof. destruct r; simpl; [eauto | discriminate]. Qed.

Lemma train_test_split_Ok X y ts rs X_train X_val y_train y_val :
  train_test_split X y ts rs = Ok (X_train, X_val, y_train, y_val) ->
  exists train test,
    shuffle_split (len X) ts rs = Ok (train, test) /\
    X_train = PandasOps.iloc train X /\ X_val = PandasOps.iloc test X /\
    y_train = PandasOps.iloc_series train y /\
    y_val = PandasOps.iloc_series test y.
Proof.
  unfold train_test_split. intros H.
  apply result_bind_Ok in H as ([train test] & Hs & H).
  injection H as <- <- <- <-. eauto 8.
Qed.

Lemma Pipeline_fit_Ok n1 pre n2 reg X y fp :
  Pipeline_fit (Pipeline [(n1, pre); (n2, reg)]) X y = Ok fp ->
  exists ft Xt fr,
    fit_transform pre X y = Ok (ft, Xt) /\
    fit_regressor reg Xt y = Ok fr /\
    fp = [(n1, FittedT ft); (n2, FittedR fr)].
Proof.
  simpl. intros H.
  apply result_bind_Ok in H as ([ft Xt] & Hft & H).
  apply result_bind_Ok in H as (fr & Hfr & H).
  injection H as <-. eauto 8.
Qed.

Lemma Pipeline_predict_Ok n1 ft n2 fr X preds :
  Pipeline_predict [(n1, FittedT ft); (n2, FittedR fr)] X = Ok preds ->
  exists Xt, transform ft X = Ok Xt /\ predict_regressor fr Xt = Ok preds.
Proof. simpl. intros H. now apply result_bind_Ok in H. Qed.

(** A run that returns went through every step, and left the fitted
    pipeline in [model_pipeline.pkl]. *)
Lemma train_run_inv (w w' : world) (m : train_model_clean.metrics) :
  train_model_clean.main w = (Returned m, w') ->
  exists t, trained w t m /\
            fs w' = <["model_pipeline.pkl" := PickleFile (t_fitted t)]> (fs w).
Proof.
  intros H. unfold train_model_clean.main in H. run H.
  apply train_test_split_Ok in Hcall1
    as (train & test & Hs & -> & -> & -> & ->).
  apply Pipeline_fit_Ok in Hcall2 as (ft & Xt & fr & Hft & Hfr & ->).
  apply Pipeline_predict_Ok in Hcall3 as (Xv & Hxv & Hp).
  match goal with
  | Hd : PandasOps.drop _ ?df = Ok ?X, Hy : PandasOps.getitem _ _ = Ok ?y,
    He : train_model_clean.evaluate _ ?yp = Ok _ |- _ =>
      exists (mkTraining df X y train test ft Xt fr Xv yp)
  end.
  split; [constructor; assumption | reflexivity].
Qed.

(** Conversely, when every step succeeds the script returns. *)
Lemma train_run (w : world) (t : training) (m : train_model_clean.metrics) :
  trained w t m ->
  train_model_clean.main w =
    (Returned m,
     {| fs := <["model_pipeline.pkl" := PickleFile (t_fitted t)]> (fs w);
        log := log w ++ train_events t m |}).
Proof.
  intros [Hf Hd Hy Hs Hft Hfr Hxv Hp Hm].
  unfold train_model_clean.main, mbind, script_bind, bind, pd_read_csv,
    print, emit, joblib_dump, write, mret, script_ret, ret.
  rewrite Hf. cbn [fs log].
  unfold train_model_clean.TARGET. rewrite Hd, Hy. cbn.
  unfold train_test_split, train_model_clean.test_size,
    train_model_clean.random_state. rewrite Hs. cbn.
  fold (t_X_train t) (t_y_train t) (t_X_val t) (t_y_val t).
  rewrite Hft. cbn. rewrite Hfr. cbn. rewrite Hxv. cbn. rewrite Hp. cbn.
  rewrite Hm. cbn. unfold train_events, t_fitted. now rewrite <- !app_assoc.
Qed.

End TrainFacts.

(** * Runs in the reference directory *)

Lemma run_pair `{L : Sklearn} {A} (m : script A) (w : world) (o : outcome A) :
  fst (m w) = o -> m w = (o, snd (m w)).
Proof. intros <-. apply surjective_pairing. Qed.

Lemma reference_train_run :
  train_model_clean.main Reference.fresh
    = (Returned {| train_model_clean.mae := 1; train_model_clean.rmse := 1;
                   train_model_clean.r2 := 1 |},
       Reference.trained_world).
Proof. unfold Reference.trained_world. apply run_pair. vm_compute. reflexivity. Qed.

Lemma reference_data_file :
  fs Reference.fresh !! "data/data.csv" = Some (CsvFile Reference.data).
Proof. vm_compute. reflexivity. Qed.

Lemma reference_trained_model :
  fs Reference.trained_world !! "model_pipeline.pkl"
    = Some (PickleFile Reference.fitted).
Proof. vm_compute. reflexivity. Qed.

Lemma reference_trained_test :
  fs Reference.trained_world !! "data/test.csv" = Some (CsvFile Reference.test).
Proof. vm_compute. reflexivity. Qed.

Lemma reference_no_index_model :
  fs Reference.trained_world_no_index !! "model_pipeline.pkl"
    = Some (PickleFile Reference.fitted).
Proof. vm_compute. reflexivity. Qed.

Lemma reference_no_index_test :
  fs Reference.trained_world_no_index !! "data/test.csv"
    = Some (CsvFile Reference.test_no_index).
Proof. vm_compute. reflexivity. Qed.

Lemma reference_check_run :
  check_model_accuracy.main Reference.trained_world
    = (Returned
         ({| check_model_accuracy.mae := 4; check_model_accuracy.rmse := 4;
             check_model_accuracy.r2 := 4 |},
          {| check_model_accuracy.mae := 1; check_model_accuracy.rmse := 1;
             check_model_accuracy.r2 := 1 |}),
       snd (check_model_accuracy.main Reference.trained_world)).
Proof. apply run_pair. vm_compute. reflexivity. Qed.

Lemma reference_importance_run (w : world (L := Reference.lib)) :
  fs w !! "model_pipeline.pkl" = Some (PickleFile Reference.fitted) ->
  fst (feature_importance.main EmptyString w)
    = Returned [("district_name", (7 # 10)%Q); ("total_area", (3 # 10)%Q)].
Proof.
  intros H.
  unfold feature_importance.main, mbind, script_bind, bind, os_makedirs,
    print, emit, joblib_load.
  cbn [fs log].
  change (feature_importance.MODEL_PATH EmptyString) with "model_pipeline.pkl".
  rewrite H. reflexivity.
Qed.

(** * The pipeline both scripts build *)

Section PipelineFacts.
Context `{L : Sklearn}.

Lemma unique_dtype (cols : list (string * dtype)) c d d' :
  List.NoDup (map fst cols) -> In (c, d) cols -> In (c, d') cols -> d = d'.
Proof.
  induction cols as [|[c0 d0] cols IH]; simpl; [tauto|].
  intros Hnd [H1|H1] [H2|H2]; inversion Hnd as [|? ? Hnotin Hnd']; subst.
  - congruence.
  - injection H1 as -> ->. exfalso. apply Hnotin.
    apply in_map_iff. now exists (c, d').
  - injection H2 as -> ->. exfalso. apply Hnotin.
    apply in_map_iff. now exists (c, d).
  - now apply IH.
Qed.

Lemma cat_cols_In (X : DataFrame) (c : string) :
  In c (train_model_clean.cat_cols X) <-> In (c, object) (columns X).
Proof.
  unfold train_model_clean.cat_cols, PandasOps.object_columns.
  rewrite in_map_iff. split.
  - intros ([c' d] & <- & H). apply filter_In in H as [H Hd]. simpl in *.
    destruct d; simpl in Hd; try discriminate. exact H.
  - intros H. exists (c, object). split; [reflexivity|].
    apply filter_In. split; [exact H | reflexivity].
Qed.

Lemma num_cols_In (X : DataFrame) (c : string) :
  In c (train_model_clean.num_cols X) <->
  In c (column_names X) /\ ~ In c (train_model_clean.cat_cols X).
Proof.
  unfold train_model_clean.num_cols. rewrite filter_In, negb_true_iff, mem_false.
  reflexivity.
Qed.

(** With distinct column names, as [read_csv] gives them, an object column
    goes to the categorical transformer and any other column to the numeric
    one, and to that one only. *)
Lemma column_assignment (X : DataFrame) (c : string) (d : dtype) :
  List.NoDup (column_names X) -> In (c, d) (columns X) ->
  (d = object ->
     In c (train_model_clean.cat_cols X) /\ ~ In c (train_model_clean.num_cols X)) /\
  (d <> object ->
     In c (train_model_clean.num_cols X) /\ ~ In c (train_model_clean.cat_cols X)).
Proof.
  intros Hnd Hin. split.
  - intros ->. split; [now apply cat_cols_In|].
    rewrite num_cols_In, cat_cols_In. tauto.
  - intros Hd.
    assert (~ In c (train_model_clean.cat_cols X)) as Hnot.
    { rewrite cat_cols_In. intros Ho. apply Hd.
      exact (unique_dtype _ _ _ _ Hnd Hin Ho). }
    split; [|exact Hnot]. apply num_cols_In. split; [|exact Hnot].
    unfold column_names. apply in_map_iff. now exists (c, d).
Qed.

Lemma validate_cv_run_inv (BASE_DIR : string) (w w' : world) (u : unit) :
  validate_cv.main BASE_DIR w = (Returned u, w') ->
  exists df X y neg_mae neg_mse r2_scores,
    fs w !! validate_cv.DATA_PATH BASE_DIR = Some (CsvFile df) /\
    PandasOps.drop ["price"; "index"] df = Ok X /\
    PandasOps.getitem "price" df = Ok y /\
    cross_val_score (validate_cv.pipeline X) X y validate_cv.kf
      "neg_mean_absolute_error" = Ok neg_mae /\
    cross_val_score (validate_cv.pipeline X) X y validate_cv.kf
      "neg_mean_squared_error" = Ok neg_mse /\
    cross_val_score (validate_cv.pipeline X) X y validate_cv.kf
      "r2" = Ok r2_scores.
Proof.
  intros H. unfold validate_cv.main in H. run H.
  do 6 eexists. repeat split; eassumption.
Qed.

End PipelineFacts.

(** C1: the training script and the cross-validation script build the same
    two-stage pipeline: a column transformer that imputes the median in
    every non-object column and imputes the most frequent value and then
    one-hot encodes (unknown categories ignored) every object column,
    followed by a random forest regressor.  The pipeline is fit as one unit
    and applied as one unit: whatever table it later predicts on goes
    through the transformer that was fit on the training rows, and that
    fitted pipeline is what the script saves.  The cross-validation script
    hands the same pipeline, whole, to [cross_val_score]. *)
Theorem pipeline_same_and_applied_as_unit `{L : Sklearn}
    (X : DataFrame) (w w' : world) (m : train_model_clean.metrics)
    (Hnames : List.NoDup (column_names X))
    (Hrun : train_model_clean.main w = (Returned m, w')) :
  train_model_clean.pipeline X = validate_cv.pipeline X /\
  train_model_clean.pipeline X =
    Pipeline
      [("preprocess",
        ColumnTransformer
          [("num", Pipeline [("imputer", SimpleImputer "median")],
            train_model_clean.num_cols X);
           ("cat", Pipeline [("imputer", SimpleImputer "most_frequent");
                             ("onehot", OneHotEncoder "ignore")],
            train_model_clean.cat_cols X)]);
       ("model", RandomForestRegressor 400 42 (-1))] /\
  (forall c d, In (c, d) (columns X) ->
     (d = object ->
        In c (train_model_clean.cat_cols X) /\
        ~ In c (train_model_clean.num_cols X)) /\
     (d <> object ->
        In c (train_model_clean.num_cols X) /\
        ~ In c (train_model_clean.cat_cols X))) /\
  (exists t,
     trained w t m /\
     Pipeline_fit (train_model_clean.pipeline (t_X t)) (t_X_train t) (t_y_train t)
       = Ok (t_fitted t) /\
     Pipeline_predict (t_fitted t) (t_X_val t) = Ok (t_y_pred t) /\
     (forall X', Pipeline_predict (t_fitted t) X' =
                 result_bind (transform (t_ft t) X') (predict_regressor (t_fr t))) /\
     fs w' !! "model_pipeline.pkl" = Some (PickleFile (t_fitted t))) /\
  (forall BASE_DIR w1 w2 u,
     validate_cv.main BASE_DIR w1 = (Returned u, w2) ->
     exists df X1 y scores,
       fs w1 !! validate_cv.DATA_PATH BASE_DIR = Some (CsvFile df) /\
       PandasOps.drop ["price"; "index"] df = Ok X1 /\
       PandasOps.getitem "price" df = Ok y /\
       cross_val_score (train_model_clean.pipeline X1) X1 y validate_cv.kf
         "neg_mean_absolute_error" = Ok scores).
Proof.
  split; [reflexivity|]. split; [reflexivity|].
  split; [intros c d Hin; now apply column_assignment|]. split.
  - destruct (train_run_inv _ _ _ Hrun) as (t & Ht & Hfs).
    exists t. split; [exact Ht|]. destruct Ht. split.
    + unfold train_model_clean.pipeline. simpl.
      rewrite tr_fit_pre0. simpl. rewrite tr_fit_model0. reflexivity.
    + split; [simpl; rewrite tr_transform0; simpl; exact tr_predict0|].
      split; [reflexivity|]. rewrite Hfs. apply lookup_insert_eq.
  - intros B w1 w2 u H.
    destruct (validate_cv_run_inv _ _ _ _ H)
      as (df & X1 & y & s1 & s2 & s3 & Hf & Hd & Hy & H1 & _).
    exists df, X1, y, s1. auto.
Qed.

Lemma pipeline_same_and_applied_as_unit_witness :
  exists t : training (L := Reference.lib),
    trained Reference.fresh t
      {| train_model_clean.mae := 1; train_model_clean.rmse := 1;
         train_model_clean.r2 := 1 |} /\
    fs Reference.trained_world !! "model_pipeline.pkl"
      = Some (PickleFile (t_fitted t)).
Proof.
  destruct (pipeline_same_and_applied_as_unit (L := Reference.lib)
              Reference.data Reference.fresh Reference.trained_world
              {| train_model_clean.mae := 1; train_model_clean.rmse := 1;
                 train_model_clean.r2 := 1 |})
    as (_ & _ & _ & (t & Ht & _ & _ & _ & Hfs) & _).
  - vm_compute. repeat constructor; simpl; intuition discriminate.
  - exact reference_train_run.
  - exists t. split; assumption.
Defined.

(** C2: the training script runs with the parameter choices the spec
    names.  The forest has 400 trees and seed 42, numeric columns are
    imputed with the median, the split is called with a test size of 0.2
    (80% of the rows are left for training) and seed 42, and a run that
    returns has made its split and fit its forest with exactly these
    arguments.  The cross-validation script uses the same forest and the
    seed 42 for its five folds. *)
Theorem training_configuration `{L : Sklearn}
    (w w' : world) (m : train_model_clean.metrics)
    (Hrun : train_model_clean.main w = (Returned m, w')) :
  train_model_clean.numeric_transformer
    = Pipeline [("imputer", SimpleImputer "median")] /\
  train_model_clean.test_size = (2 # 10)%Q /\
  (1 - train_model_clean.test_size == 8 # 10)%Q /\
  train_model_clean.random_state = 42%Z /\
  validate_cv.model = RandomForestRegressor 400 42 (-1) /\
  validate_cv.kf = {| n_splits := 5; shuffle := true; kf_random_state := 42 |} /\
  exists t,
    trained w t m /\
    train_model_clean.pipeline (t_X t) =
      Pipeline [("preprocess", train_model_clean.preprocessor (t_X t));
                ("model", RandomForestRegressor 400 42 (-1))] /\
    In ("num", train_model_clean.numeric_transformer,
        train_model_clean.num_cols (t_X t))
       (match train_model_clean.preprocessor (t_X t) with
        | ColumnTransformer ts => ts
        | _ => []
        end) /\
    train_test_split (t_X t) (t_y t) (2 # 10)%Q 42
      = Ok (t_X_train t, t_X_val t, t_y_train t, t_y_val t) /\
    fit_regressor (RandomForestRegressor 400 42 (-1)) (t_Xt t) (t_y_train t)
      = Ok (t_fr t).
Proof.
  repeat (split; [reflexivity|]).
  destruct (train_run_inv _ _ _ Hrun) as (t & Ht & _).
  exists t. split; [exact Ht|]. destruct Ht.
  split; [reflexivity|]. split; [simpl; auto|]. split; [|assumption].
  unfold train_test_split.
  change (2 # 10)%Q with 0.2%Q. rewrite tr_split0. reflexivity.
Qed.

Lemma training_configuration_witness :
  exists t : training (L := Reference.lib),
    trained Reference.fresh t
      {| train_model_clean.mae := 1; train_model_clean.rmse := 1;
         train_model_clean.r2 := 1 |} /\
    train_test_split (L := Reference.lib) (t_X t) (t_y t) (2 # 10)%Q 42
      = Ok (t_X_train t, t_X_val t, t_y_train t, t_y_val t).
Proof.
  destruct (training_configuration (L := Reference.lib)
              Reference.fresh Reference.trained_world
              {| train_model_clean.mae := 1; train_model_clean.rmse := 1;
                 train_model_clean.r2 := 1 |})
    as (_ & _ & _ & _ & _ & _ & t & Ht & _ & _ & Hsplit & _).
  - exact reference_train_run.
  - exists t. split; assumption.
Defined.

(** * The submission file *)

Section SubmissionFacts.
Context `{L : Sklearn}.

Lemma nth_error_in_range {A} (l : list A) (i : nat) :
  i < length l -> exists a, nth_error l i = Some a.
Proof.
  intros H. destruct (nth_error l i) eqn:E; [eauto|].
  apply List.nth_error_None in E. lia.
Qed.

Lemma nth_error_range (n i : nat) :
  i < n -> nth_error (seq 0 n) i = Some i.
Proof.
  intros H. rewrite (List.nth_error_nth' _ 0) by (rewrite length_seq; lia).
  now rewrite List.seq_nth.
Qed.

(** Row [i] of the submission holds the [i]-th index value and the [i]-th
    prediction. *)
Lemma frame_row (s : Series) (arr : list Q) (sub : DataFrame) i v p :
  PandasOps.frame_of_series_and_array "index" s "price" arr = Ok sub ->
  nth_error (values s) i = Some v -> nth_error arr i = Some p ->
  nth_error (rows sub) i = Some [v; CFloat p].
Proof.
  intros H Hv Hp. pose proof (frame_Ok_inv _ _ _ H) as Hlen.
  destruct (frame_Ok s arr Hlen) as (sub' & H' & _ & Hrows & _).
  rewrite H in H'. injection H' as <-. rewrite Hrows.
  rewrite List.nth_error_map, (combine_nth_error _ _ _ _ _ Hv Hp).
  reflexivity.
Qed.

Lemma frame_rectangular (s : Series) (arr : list Q) (sub : DataFrame) :
  PandasOps.frame_of_series_and_array "index" s "price" arr = Ok sub ->
  rectangular sub.
Proof.
  intros H. pose proof (frame_Ok_inv _ _ _ H) as Hlen.
  destruct (frame_Ok s arr Hlen) as (sub' & H' & _ & Hrows & _).
  rewrite H in H'. injection H' as <-. unfold rectangular.
  assert (length (columns sub) = 2) as ->.
  { unfold PandasOps.frame_of_series_and_array in H.
    rewrite Hlen, Nat.eqb_refl in H. now injection H as <-. }
  rewrite Hrows. apply List.Forall_forall. intros r Hr.
  apply in_map_iff in Hr as (q & <- & _). reflexivity.
Qed.

End SubmissionFacts.



(** * The index of the submission *)

Section IndexFacts.
Context `{L : Sklearn}.

Lemma getitem_values (c : string) (df : DataFrame) (s : Series) :
  PandasOps.getitem c df = Ok s ->
  exists k, position c (columns df) = Some k /\
            values s = map (fun r => nth k r NaN) (rows df).
Proof.
  unfold PandasOps.getitem. destruct (position c (columns df)) as [k|];
    intros H; [|discriminate].
  injection H as <-. eauto.
Qed.

Lemma drop_rows (labels : list string) (df X : DataFrame) :
  PandasOps.drop labels df = Ok X ->
  rows X = map (project (fun c => negb (mem c labels)) (columns df)) (rows df).
Proof.
  unfold PandasOps.drop. destruct (forallb _ labels); intros H; [|discriminate].
  now injection H as <-.
Qed.

End IndexFacts.

(** C8: a test CSV without an [index] column does not stop the
    batch-prediction script: where reading the column would raise, the
    script makes the index 0, 1, ..., n-1 for the n test rows and takes the
    whole table as features.  With an [index] column, the column is copied
    into the submission as it is and removed from the features.  Either
    way row i of the submission holds the index value of test row i and
    the prediction at position i, which the library computed from the
    features of test row i. *)
Theorem submission_index_pairs_rows `{L : Sklearn}
    (w : world) (model : FittedPipeline) (test_df : DataFrame)
    (idx : Series) (X_test : DataFrame) (preds : list Q)
    (Hmodel : fs w !! "model_pipeline.pkl" = Some (PickleFile model))
    (Htest : fs w !! "data/test.csv" = Some (CsvFile test_df))
    (Hprep : predict_clean.prepare test_df = Ok (idx, X_test))
    (Hpred : Pipeline_predict model X_test = Ok preds)
    (Hlen : length preds = len X_test) :
  (has_column "index" test_df = false ->
     PandasOps.getitem "index" test_df = Error "KeyError" /\
     values idx = map (fun i => CInt (Z.of_nat i)) (seq 0 (len test_df)) /\
     X_test = test_df) /\
  (has_column "index" test_df = true ->
     PandasOps.getitem "index" test_df = Ok idx /\
     PandasOps.drop ["index"] test_df = Ok X_test /\
     has_column "index" X_test = false) /\
  exists sub w',
    predict_clean.main w = (Returned sub, w') /\
    fs w' !! "submission.csv" = Some (CsvFile sub) /\
    forall i r,
      nth_error (rows test_df) i = Some r ->
      exists v x p,
        nth_error (values idx) i = Some v /\
        nth_error (rows X_test) i = Some x /\
        nth_error preds i = Some p /\
        nth_error (rows sub) i = Some [v; CFloat p] /\
        (has_column "index" test_df = false ->
           v = CInt (Z.of_nat i) /\ x = r) /\
        (has_column "index" test_df = true ->
           exists k, position "index" (columns test_df) = Some k /\
                     v = nth k r NaN /\
                     x = project (fun c => negb (mem c ["index"]))
                           (columns test_df) r).
Proof.
  destruct (prepare_shape _ _ _ Hprep) as (Hidx & HX & Hgone).
  assert (length (values idx) = length preds) as Hsame by congruence.
  destruct (frame_Ok idx preds Hsame) as (sub & Hsub & _).
  split; [|split].
  - intros Hno. split; [now apply getitem_missing|].
    rewrite (prepare_without_index _ Hno) in Hprep.
    injection Hprep as <- <-. auto.
  - intros Hyes.
    destruct (prepare_with_index _ Hyes) as (i & X & Hp & Hget & Hdrop).
    rewrite Hp in Hprep. injection Hprep as <- <-. auto.
  - exists sub. eexists. split.
    { apply (predict_run w model test_df idx X_test preds sub); assumption. }
    cbn [fs]. split; [apply lookup_insert_eq|].
    intros i r Hr.
    assert (i < len test_df) as Hi.
    { unfold len. apply List.nth_error_Some. congruence. }
    destruct (nth_error_in_range (values idx) i) as [v Hv]; [lia|].
    destruct (nth_error_in_range (rows X_test) i) as [x Hx];
      [fold (len X_test); lia|].
    destruct (nth_error_in_range preds i) as [p Hp]; [lia|].
    exists v, x, p. repeat (split; [assumption|]).
    split; [exact (frame_row _ _ _ _ _ _ Hsub Hv Hp)|]. split.
    + intros Hno. rewrite (prepare_without_index _ Hno) in Hprep.
      injection Hprep as <- <-. simpl in Hv.
      rewrite List.nth_error_map, (nth_error_range _ _ Hi) in Hv.
      simpl in Hv. split; congruence.
    + intros Hyes.
      destruct (prepare_with_index _ Hyes) as (s & X & Hp' & Hget & Hdrop).
      rewrite Hp' in Hprep. injection Hprep as <- <-.
      destruct (getitem_values _ _ _ Hget) as (k & Hk & Hvals).
      exists k. split; [exact Hk|].
      rewrite Hvals, List.nth_error_map, Hr in Hv.
      rewrite (drop_rows _ _ _ Hdrop), List.nth_error_map, Hr in Hx.
      cbn [option_map] in Hv, Hx. injection Hv as <-. injection Hx as <-.
      split; reflexivity.
Qed.

Lemma submission_index_pairs_rows_witness :
  exists sub w',
    predict_clean.main Reference.trained_world_no_index = (Returned sub, w') /\
    fs w' !! "submission.csv" = Some (CsvFile sub) /\
    nth_error (rows sub) 1 = Some [CInt 1; CFloat 2].
Proof.
  destruct (submission_index_pairs_rows (L := Reference.lib)
              Reference.trained_world_no_index Reference.fitted
              Reference.test_no_index
              (PandasOps.range_series "index" 2)
              Reference.test_no_index
              [2%Q; 2%Q]
              reference_no_index_model reference_no_index_test
              eq_refl eq_refl eq_refl)
    as (_ & _ & sub & w' & Hrun & Hfile & Hrows).
  exists sub, w'. split; [exact Hrun|]. split; [exact Hfile|].
  destruct (Hrows 1%nat [CFloat 47; CStr "Centralnyj"] eq_refl)
    as (v & x & p & Hv & _ & Hp & Hrow & _).
  vm_compute in Hv, Hp. injection Hv as <-. injection Hp as <-.
  exact Hrow.
Defined.

(** * The feature-importance script *)

Section ImportanceFacts.
Context `{L : Sklearn}.

Import feature_importance.

Lemma desc_trans : Relations_1.Transitive desc.
Proof. intros a b c Hab Hbc. unfold desc in *. now apply Qle_trans with (snd b). Qed.

Lemma insert_desc_perm x l : Permutation (x :: l) (insert_desc x l).
Proof.
  induction l as [|y l IH]; simpl; [reflexivity|].
  destruct (Qle_bool (snd y) (snd x)); [reflexivity|].
  rewrite perm_swap. now constructor.
Qed.

Lemma sort_values_desc_perm l : Permutation l (sort_values_desc l).
Proof.
  induction l as [|x l IH]; simpl; [constructor|].
  rewrite <- insert_desc_perm. now constructor.
Qed.

Lemma insert_desc_hd x y l :
  desc y x -> HdRel desc y l -> HdRel desc y (insert_desc x l).
Proof.
  intros Hyx Hl. destruct l as [|z l]; simpl; [now constructor|].
  destruct (Qle_bool (snd z) (snd x)); constructor; [exact Hyx|].
  now inversion Hl.
Qed.

Lemma insert_desc_sorted x l :
  Sorted desc l -> Sorted desc (insert_desc x l).
Proof.
  induction l as [|y l IH]; simpl; intros Hs.
  - repeat constructor.
  - destruct (Qle_bool (snd y) (snd x)) eqn:E.
    + constructor; [exact Hs|]. constructor. now apply Qle_bool_iff.
    + inversion Hs as [|? ? Hs' Hhd]; subst.
      constructor; [now apply IH|]. apply insert_desc_hd; [|exact Hhd].
      unfold desc. apply Qlt_le_weak, Qnot_le_lt.
      intros Hle. apply Qle_bool_iff in Hle. congruence.
Qed.

Lemma sort_values_desc_sorted l : Sorted desc (sort_values_desc l).
Proof.
  induction l as [|x l IH]; simpl; [constructor|]. now apply insert_desc_sorted.
Qed.

(** The first rows of a table in order are in order. *)
Lemma head_sorted n l : StronglySorted desc l -> StronglySorted desc (head n l).
Proof.
  unfold head. revert l. induction n as [|n IH]; intros l Hs; simpl;
    [constructor|].
  destruct l as [|x l]; [constructor|].
  inversion Hs as [|? ? Hs' Hall]; subst. constructor; [now apply IH|].
  apply List.Forall_forall. intros y Hy.
  rewrite List.Forall_forall in Hall. apply Hall.
  revert Hy. clear. revert l. induction n as [|n IH]; intros [|z l]; simpl;
    try tauto.
  intros [->|H]; [now left | right; now apply IH].
Qed.

Lemma head_In n (l : imp_rows) p : In p (head n l) -> In p l.
Proof.
  unfold head. revert l. induction n as [|n IH]; intros [|z l]; simpl;
    try tauto.
  intros [->|H]; [now left | right; now apply IH].
Qed.

Lemma imp_frame_Ok names imps df :
  imp_frame names imps = Ok df ->
  length names = length imps /\ df = combine names imps.
Proof.
  unfold imp_frame.
  destruct (Nat.eqb_spec (length names) (length imps)); intros H;
    [|discriminate].
  injection H as <-. auto.
Qed.

Lemma as_transformer_Ok s t : as_transformer s = Ok t -> s = FittedT t.
Proof. destruct s; simpl; intros H; [now injection H as -> | discriminate]. Qed.

Lemma as_regressor_Ok s r : as_regressor s = Ok r -> s = FittedR r.
Proof. destruct s; simpl; intros H; [discriminate | now injection H as ->]. Qed.

(** A run that returns read the two steps of the saved pipeline, and
    printed and wrote the first twenty rows of the sorted table. *)
Lemma importance_run_inv (BASE_DIR : string) (w w' : world) (top : imp_rows) :
  main BASE_DIR w = (Returned top, w') ->
  exists pipeline ft fr names,
    fs w !! MODEL_PATH BASE_DIR = Some (PickleFile pipeline) /\
    named_steps pipeline "preprocess" = Ok (FittedT ft) /\
    named_steps pipeline "model" = Ok (FittedR fr) /\
    get_feature_names_out ft = Ok names /\
    length names = length (feature_importances_ fr) /\
    top = head 20 (sort_values_desc (combine names (feature_importances_ fr))) /\
    fs w' = <[OUT_CSV BASE_DIR := CsvFile (to_frame top)]> (fs w) /\
    In (Print (Table "imp_df.head(20)" (to_frame top))) (log w') /\
    In (WriteCsv (OUT_CSV BASE_DIR)) (log w').
Proof.
  intros H. unfold main in H. run H.
  repeat match goal with
  | H : result_bind _ _ = Ok _ |- _ =>
      apply result_bind_Ok in H; destruct H as (? & ? & H)
  end.
  repeat match goal with
  | H : Ok _ = Ok _ |- _ => injection H as H; subst
  | H : as_transformer _ = Ok _ |- _ => apply as_transformer_Ok in H; subst
  | H : as_regressor _ = Ok _ |- _ => apply as_regressor_Ok in H; subst
  | H : imp_frame _ _ = Ok _ |- _ =>
      apply imp_frame_Ok in H; destruct H as [? ?]; subst
  end.
  do 4 eexists. repeat (split; [eassumption || reflexivity|]).
  split; rewrite !in_app_iff; cbn [In]; tauto.
Qed.

End ImportanceFacts.

(** C10: the feature-importance script prints and writes the same table: at
    most twenty rows, taken from the front of the importance table sorted
    by importance from largest to smallest, so no row has a larger
    importance than a row before it; each row is a feature name of the
    fitted preprocessing paired with the importance the forest gives it at
    the same position. *)
Theorem importance_top20_sorted `{L : Sklearn}
    (BASE_DIR : string) (w w' : world) (top : feature_importance.imp_rows)
    (Hrun : feature_importance.main BASE_DIR w = (Returned top, w')) :
  length top <= 20 /\
  len (feature_importance.to_frame top) <= 20 /\
  StronglySorted feature_importance.desc top /\
  fs w' !! feature_importance.OUT_CSV BASE_DIR
    = Some (CsvFile (feature_importance.to_frame top)) /\
  In (Print (Table "imp_df.head(20)" (feature_importance.to_frame top))) (log w') /\
  rows (feature_importance.to_frame top)
    = map (fun p => [CStr (fst p); CFloat (snd p)]) top /\
  exists pipeline ft fr names,
    fs w !! feature_importance.MODEL_PATH BASE_DIR = Some (PickleFile pipeline) /\
    named_steps pipeline "preprocess" = Ok (FittedT ft) /\
    named_steps pipeline "model" = Ok (FittedR fr) /\
    get_feature_names_out ft = Ok names /\
    (forall p, In p top -> In p (combine names (feature_importances_ fr))) /\
    top = firstn 20 (feature_importance.sort_values_desc
                       (combine names (feature_importances_ fr))) /\
    Permutation (combine names (feature_importances_ fr))
      (feature_importance.sort_values_desc
         (combine names (feature_importances_ fr))).
Proof.
  destruct (importance_run_inv _ _ _ _ Hrun)
    as (pipeline & ft & fr & names & Hf & Hpre & Hmodel & Hnames & Hlen &
        Htop & Hfs & Hprint & _).
  assert (length top <= 20) as Hn.
  { rewrite Htop. unfold feature_importance.head. apply List.firstn_le_length. }
  split; [exact Hn|]. split.
  { unfold len, feature_importance.to_frame. simpl. now rewrite length_map. }
  split.
  { rewrite Htop. apply head_sorted.
    apply Sorted_StronglySorted; [exact desc_trans|].
    apply sort_values_desc_sorted. }
  split; [rewrite Hfs; apply lookup_insert_eq|].
  split; [exact Hprint|]. split; [reflexivity|].
  exists pipeline, ft, fr, names. repeat (split; [assumption|]).
  split; [|split; [exact Htop | apply sort_values_desc_perm]].
  intros p Hp. rewrite Htop in Hp. apply head_In in Hp.
  apply (Permutation_in _ (Permutation_sym (sort_values_desc_perm _)) Hp).
Qed.

Lemma importance_top20_sorted_witness :
  exists w',
    feature_importance.main (L := Reference.lib) EmptyString
      Reference.trained_world
      = (Returned [("district_name", (7 # 10)%Q); ("total_area", (3 # 10)%Q)], w') /\
    StronglySorted feature_importance.desc
      [("district_name", (7 # 10)%Q); ("total_area", (3 # 10)%Q)].
Proof.
  exists (snd (feature_importance.main (L := Reference.lib) EmptyString
                 Reference.trained_world)).
  assert (feature_importance.main (L := Reference.lib) EmptyString
            Reference.trained_world
          = (Returned [("district_name", (7 # 10)%Q); ("total_area", (3 # 10)%Q)],
             snd (feature_importance.main (L := Reference.lib) EmptyString
                    Reference.trained_world))) as Hrun
    by (apply run_pair, reference_importance_run, reference_trained_model).
  split; [exact Hrun|].
  exact (proj1 (proj2 (proj2 (importance_top20_sorted _ _ _ _ Hrun)))).
Defined.

(** * The accuracy check *)

Section CheckFacts.
Context `{L : Sklearn}.

Lemma check_model_exists_returned (u : unit) (w w' : world) :
  check_model_accuracy.check_model_exists w = (Returned u, w') ->
  is_Some (fs w !! "model_pipeline.pkl") /\ w' = w.
Proof.
  unfold check_model_accuracy.check_model_exists, mbind, script_bind, bind,
    os_path_exists, print, emit, exit, mret, script_ret, ret.
  destruct (bool_decide (is_Some (fs w !! "model_pipeline.pkl"))) eqn:E;
    simpl; intros H; [|discriminate].
  injection H as _ <-. split; [|reflexivity].
  now apply bool_decide_eq_true in E.
Qed.

Lemma check_run_inv (w w' : world)
    (r : check_model_accuracy.metrics * check_model_accuracy.metrics) :
  check_model_accuracy.main w = (Returned r, w') ->
  exists c, checked w c r.
Proof.
  intros H.
  unfold check_model_accuracy.main, check_model_accuracy.report in H. run H.
  match goal with
  | Hc : check_model_accuracy.check_model_exists _ = _ |- _ =>
      apply check_model_exists_returned in Hc; destruct Hc as [_ ->]
  end.
  cbn [fs log] in *.
  match goal with
  | Hs : train_test_split _ _ _ _ = Ok _ |- _ =>
      pose proof Hs as Hs';
      apply train_test_split_Ok in Hs' as (train & test & Hidx & -> & -> & -> & ->)
  end.
  match goal with
  | Hm : fs w !! "model_pipeline.pkl" = Some (PickleFile ?model),
    Hd : PandasOps.drop _ ?df = Ok ?X, Hy : PandasOps.getitem _ _ = Ok ?y,
    H1 : Pipeline_predict _ (PandasOps.iloc train _) = Ok ?p1,
    H2 : Pipeline_predict _ (PandasOps.iloc test _) = Ok ?p2 |- _ =>
      exists (mkChecking model df X y train test p1 p2)
  end.
  constructor; assumption.
Qed.

End CheckFacts.

Lemma reference_split_is_disjoint : split_is_disjoint (L := Reference.lib).
Proof.
  intros n ts rs train test H i Htest Htrain. simpl in H.
  unfold Reference.split in H.
  destruct (_ || _); [discriminate|]. injection H as <- <-.
  apply in_seq in Htest, Htrain. lia.
Qed.



(** * Matching feature columns *)

Section MatchFacts.
Context `{L : Sklearn}.

(** An exception of [model.predict] reaches the console as it is, and
    nothing is written. *)
Lemma predict_run_raises (w : world) model test_df idx X_test e :
  fs w !! "model_pipeline.pkl" = Some (PickleFile model) ->
  fs w !! "data/test.csv" = Some (CsvFile test_df) ->
  predict_clean.prepare test_df = Ok (idx, X_test) ->
  Pipeline_predict model X_test = Error e ->
  predict_clean.main w =
    (Raised (LibraryError e),
     {| fs := fs w; log := log w ++ predict_events_before_predict test_df |}).
Proof.
  intros Hm Ht Hp Hpred.
  unfold predict_clean.main, mbind, script_bind, bind, joblib_load,
    pd_read_csv, print, emit, to_csv, write, mret, script_ret, ret.
  cbn [fs log]. rewrite Hm. cbn [fs log]. rewrite Ht, Hp. cbn.
  rewrite Hpred. cbn.
  unfold predict_events_before_predict. now rewrite <- !app_assoc.
Qed.

End MatchFacts.

Lemma reference_raises_on_missing_column :
  raises_on_missing_column (L := Reference.lib).
Proof.
  intros pre X y ft Xt X' c Hfit Hin Hout. simpl in *.
  unfold Reference.fit_columns in Hfit. injection Hfit as <- <-.
  unfold Reference.apply_columns.
  destruct (forallb _ (column_names X)) eqn:E; [|eauto].
  rewrite forallb_forall in E. apply E in Hin.
  apply has_column_In in Hin. contradiction.
Qed.

Lemma reference_predicts_on_matching_columns :
  predicts_on_matching_columns (L := Reference.lib).
Proof.
  intros pre reg X y ft Xt fr X' Hfit _ Hcols. simpl in *.
  unfold Reference.fit_columns in Hfit. injection Hfit as <- <-.
  unfold Reference.apply_columns.
  assert (forallb (fun c => has_column c X') (column_names X) = true) as ->.
  { apply forallb_forall. intros c Hc. apply has_column_In.
    unfold column_names in *. now rewrite Hcols. }
  do 2 eexists. split; [reflexivity|]. split; [reflexivity|].
  unfold len. now rewrite length_map.
Qed.



(** * The scripts against the straight-line description *)

Section StraightLine.
Context `{L : Sklearn}.

Ltac unfold_script :=
  unfold mbind, script_bind, bind, pd_read_csv, joblib_load, lift, print,
    emit, to_csv, joblib_dump, write, mret, script_ret, ret; cbn [fs log].

(** The outcome of the training script on a directory that holds the
    training table: each call in turn, the first exception ending the
    run. *)
Lemma train_outcome (w : world) (df : DataFrame) :
  fs w !! "data/data.csv" = Some (CsvFile df) ->
  fst (train_model_clean.main w) =
    Spec.outcome_of
      (result_bind (PandasOps.drop ["price"; "index"] df) (fun X =>
       result_bind (PandasOps.getitem "price" df) (fun y =>
       Spec.split_fit_transform_predict_score X y))).
Proof.
  intros Hf. unfold train_model_clean.main. unfold_script. rewrite Hf.
  unfold train_model_clean.TARGET. cbn [fs log].
  destruct (PandasOps.drop _ df) as [X|e]; cbn; [|reflexivity].
  destruct (PandasOps.getitem _ df) as [y|e]; cbn; [|reflexivity].
  unfold Spec.split_fit_transform_predict_score,
    train_model_clean.test_size, train_model_clean.random_state.
  destruct (train_test_split X y _ _) as [[[[X_train X_val] y_train] y_val]|e];
    cbn; [|reflexivity].
  destruct (fit_transform _ X_train y_train) as [[ft Xt]|e]; cbn; [|reflexivity].
  destruct (fit_regressor _ Xt y_train) as [fr|e]; cbn; [|reflexivity].
  destruct (transform ft X_val) as [Xv|e]; cbn; [|reflexivity].
  destruct (predict_regressor fr Xv) as [y_pred|e]; cbn; [|reflexivity].
  unfold train_model_clean.evaluate.
  destruct (mean_absolute_error y_val y_pred); cbn; [|reflexivity].
  destruct (mean_squared_error y_val y_pred); cbn; [|reflexivity].
  destruct (r2_score y_val y_pred); cbn; reflexivity.
Qed.

(** The outcome of the batch-prediction script: one branch on the [index]
    column, a straight line in each arm. *)
Lemma predict_outcome (w : world) (model : FittedPipeline) (test_df : DataFrame) :
  fs w !! "model_pipeline.pkl" = Some (PickleFile model) ->
  fs w !! "data/test.csv" = Some (CsvFile test_df) ->
  fst (predict_clean.main w) =
    Spec.outcome_of
      (if has_column "index" test_df
       then Spec.drop_transform_predict model test_df
       else Spec.transform_predict model test_df).
Proof.
  intros Hm Ht. unfold predict_clean.main. unfold_script.
  rewrite Hm. cbn [fs log]. rewrite Ht.
  unfold predict_clean.prepare, Spec.drop_transform_predict,
    Spec.transform_predict.
  destruct (has_column "index" test_df); cbn.
  - destruct (PandasOps.getitem _ test_df) as [s|e]; cbn; [|reflexivity].
    destruct (PandasOps.drop _ test_df) as [X|e]; cbn; [|reflexivity].
    destruct (Pipeline_predict model X) as [p|e]; cbn; [|reflexivity].
    destruct (PandasOps.frame_of_series_and_array _ s _ p); reflexivity.
  - destruct (Pipeline_predict model test_df) as [p|e]; cbn; [|reflexivity].
    destruct (PandasOps.frame_of_series_and_array _ _ _ p); reflexivity.
Qed.

End StraightLine.

(** C4, as the code has it: the training script is the straight line split,
    fit, transform, predict, score on the features and the target of the
    training CSV, and the exception of any call ends the run as it is,
    with no retry or recovery.  The batch-prediction script has one branch,
    on whether the test CSV has an [index] column: with the column it is the
    straight line drop, transform, predict; without it, transform and predict
    on the whole table with the rows numbered from zero. *)
Theorem scripts_are_straight_lines_with_one_branch `{L : Sklearn} (w : world) :
  fst (train_model_clean.main w) =
    match fs w !! "data/data.csv" with
    | Some (CsvFile df) =>
        Spec.outcome_of
          (result_bind (PandasOps.drop ["price"; "index"] df) (fun X =>
           result_bind (PandasOps.getitem "price" df) (fun y =>
           Spec.split_fit_transform_predict_score X y)))
    | Some _ => Raised (LibraryError "ParserError")
    | None => Raised (LibraryError "FileNotFoundError")
    end /\
  fst (predict_clean.main w) =
    match fs w !! "model_pipeline.pkl" with
    | Some (PickleFile model) =>
        match fs w !! "data/test.csv" with
        | Some (CsvFile test_df) =>
            Spec.outcome_of
              (if has_column "index" test_df
               then Spec.drop_transform_predict model test_df
               else Spec.transform_predict model test_df)
        | Some _ => Raised (LibraryError "ParserError")
        | None => Raised (LibraryError "FileNotFoundError")
        end
    | Some _ => Raised (LibraryError "UnpicklingError")
    | None => Raised (LibraryError "FileNotFoundError")
    end.
Proof.
  split.
  - destruct (fs w !! "data/data.csv") as [[df|p|]|] eqn:Hf;
      [now apply train_outcome | | |];
      unfold train_model_clean.main, mbind, script_bind, bind, pd_read_csv;
      now rewrite Hf.
  - destruct (fs w !! "model_pipeline.pkl") as [[df|model|]|] eqn:Hm;
      try (unfold predict_clean.main, mbind, script_bind, bind, joblib_load;
           now rewrite Hm).
    destruct (fs w !! "data/test.csv") as [[test_df|p|]|] eqn:Ht;
      [now apply predict_outcome | | |];
      unfold predict_clean.main, mbind, script_bind, bind, joblib_load,
        pd_read_csv, print, emit; rewrite Hm; cbn [fs log]; now rewrite Ht.
Qed.

(** The batch-prediction script is not a straight line.  On the test table
    without [index] it returns, where dropping the column unconditionally
    raises; on the test table with [index] its submission differs from the
    one made without dropping anything. *)
Lemma batch_prediction_branches :
  fst (predict_clean.main (L := Reference.lib) Reference.trained_world_no_index)
    = Returned {| columns := [("index", int64); ("price", float64)];
                  rows := [[CInt 0; CFloat 2]; [CInt 1; CFloat 2]] |} /\
  Spec.outcome_of
    (Spec.drop_transform_predict (L := Reference.lib)
       Reference.fitted Reference.test_no_index)
    = Raised (LibraryError "KeyError") /\
  fst (predict_clean.main (L := Reference.lib) Reference.trained_world_no_index)
    <> Spec.outcome_of
         (Spec.drop_transform_predict (L := Reference.lib)
            Reference.fitted Reference.test_no_index) /\
  fst (predict_clean.main (L := Reference.lib) Reference.trained_world)
    <> Spec.outcome_of
         (Spec.transform_predict (L := Reference.lib)
            Reference.fitted Reference.test).
Proof.
  split; [vm_compute; reflexivity|].
  split; [vm_compute; reflexivity|].
  split; vm_compute; discriminate.
Qed.

(** * Failure handling *)

Section OwnFailures.
Context `{L : Sklearn}.

Lemma po_bind {A B} (m : script A) (k : A -> script B) :
  propagates_only m -> (forall a, propagates_only (k a)) ->
  propagates_only (bind m k).
Proof.
  intros Hm Hk w. unfold bind. specialize (Hm w).
  destruct (m w) as [[a|e|] w1]; simpl in *; [apply Hk | exact Hm | exact Hm].
Qed.

Lemma po_ret {A} (a : A) : propagates_only (ret a).
Proof. intros w. simpl. tauto. Qed.

Lemma po_lift {A} (r : result A) : propagates_only (lift r).
Proof. intros w. unfold lift. destruct r; simpl; tauto. Qed.

Lemma po_emit e : propagates_only (emit e).
Proof. intros w. simpl. tauto. Qed.

Lemma po_write path f e : propagates_only (write path f e).
Proof. intros w. simpl. tauto. Qed.

Lemma po_exists path : propagates_only (os_path_exists path).
Proof. intros w. simpl. tauto. Qed.

Lemma po_read_csv path : propagates_only (pd_read_csv path).
Proof.
  intros w. unfold pd_read_csv.
  destruct (fs w !! path) as [[| |]|]; simpl; tauto.
Qed.

Lemma po_load path : propagates_only (joblib_load path).
Proof.
  intros w. unfold joblib_load.
  destruct (fs w !! path) as [[| |]|]; simpl; tauto.
Qed.

Lemma po_for_each {A} (l : list A) (body : A -> script unit) :
  (forall x, propagates_only (body x)) -> propagates_only (for_each l body).
Proof.
  intros Hb. induction l as [|x l IH]; simpl; [apply po_ret|].
  apply po_bind; [apply Hb | intros _; exact IH].
Qed.

End OwnFailures.

Create HintDb own_failures.
#[local] Hint Resolve po_ret po_lift po_emit po_write po_exists po_read_csv
  po_load : own_failures.

(** Go through a script statement by statement. *)
Ltac po_step :=
  match goal with
  | |- propagates_only (bind _ _) => apply po_bind; [|intros]
  | |- propagates_only (for_each _ _) => apply po_for_each; intros
  | |- propagates_only (if ?b then _ else _) => destruct b
  | |- propagates_only (match ?p with (_, _) => _ end) => destruct p
  | |- propagates_only (match ?l with [] => _ | _ :: _ => _ end) => destruct l
  | |- propagates_only _ => solve [auto with own_failures]
  end.

Ltac po :=
  unfold mbind, script_bind, mret, script_ret, print, to_csv, joblib_dump,
    savefig, save_artifact, os_makedirs;
  repeat po_step.

Section OwnFailuresOfScripts.
Context `{L : Sklearn}.

Lemma train_propagates_only : propagates_only train_model_clean.main.
Proof. unfold train_model_clean.main. po. Qed.

Lemma validate_cv_propagates_only B : propagates_only (validate_cv.main B).
Proof. unfold validate_cv.main. po. Qed.

Lemma predict_propagates_only : propagates_only predict_clean.main.
Proof. unfold predict_clean.main. po. Qed.

Lemma importance_propagates_only B : propagates_only (feature_importance.main B).
Proof. unfold feature_importance.main. po. Qed.

Lemma demo_propagates_only B : propagates_only (demo_predict_one.main B).
Proof. unfold demo_predict_one.main. po. Qed.

Lemma eda_clean_propagates_only : propagates_only eda_clean.main.
Proof. unfold eda_clean.main. po. Qed.

Lemma find_target_propagates_only : propagates_only find_target_clean.main.
Proof. unfold find_target_clean.main. po. Qed.

Lemma plots_propagates_only B : propagates_only (plots.main B).
Proof. unfold plots.main. po. Qed.

End OwnFailuresOfScripts.

Section Guards.
Context `{L : Sklearn}.

Lemma own_failure_bind_inv {A B} (m : script A) (k : A -> script B) w :
  own_failure (fst (bind m k w)) ->
  own_failure (fst (m w)) \/
  exists a w1, m w = (Returned a, w1) /\ own_failure (fst (k a w1)).
Proof.
  unfold bind. destruct (m w) as [[a|e|] w1]; simpl; intros H; eauto.
Qed.

(** The guard of the accuracy check fails exactly when the model file is
    missing. *)
Lemma check_model_exists_fails w :
  own_failure (fst (check_model_accuracy.check_model_exists w)) ->
  fs w !! "model_pipeline.pkl" = None.
Proof.
  unfold check_model_accuracy.check_model_exists, mbind, script_bind, bind,
    os_path_exists, mret, script_ret, ret.
  destruct (fs w !! "model_pipeline.pkl") as [f|] eqn:E; [|reflexivity].
  rewrite bool_decide_eq_true_2 by eauto. simpl. tauto.
Qed.

Lemma check_exits_without_model w :
  fs w !! "model_pipeline.pkl" = None ->
  check_model_accuracy.main w =
    (Exited, {| fs := fs w; log := log w ++ check_exit_events |}).
Proof.
  intros H.
  unfold check_model_accuracy.main, check_model_accuracy.check_model_exists,
    mbind, script_bind, bind, os_path_exists, print, emit, exit.
  cbn [fs log]. rewrite H.
  rewrite bool_decide_eq_false_2 by (intros [? ?]; discriminate).
  cbn. unfold check_exit_events. now rewrite <- !app_assoc.
Qed.

Lemma check_fails_only_without_model w :
  own_failure (fst (check_model_accuracy.main w)) ->
  fs w !! "model_pipeline.pkl" = None.
Proof.
  intros H. unfold check_model_accuracy.main in H.
  unfold mbind, script_bind, print in H.
  do 3 (apply own_failure_bind_inv in H
          as [H | (? & ? & Hrun & H)]; [now apply po_emit in H|];
        apply emit_returned in Hrun; subst).
  apply own_failure_bind_inv in H as [H | (u & w1 & Hrun & H)].
  - now apply check_model_exists_fails in H.
  - exfalso. revert H.
    match goal with
    | |- own_failure (fst (?m w1)) -> False =>
        assert (propagates_only m) as Hpo
          by (unfold check_model_accuracy.report; po);
        exact (Hpo w1)
    end.
Qed.

(** [load_data] raises its own exception exactly when none of the
    candidate paths exists. *)
Lemma load_data_from_none paths w :
  (forall p, In p paths -> fs w !! p = None) ->
  eda_report.load_data_from paths w = (Raised dataset_not_found, w).
Proof.
  induction paths as [|p paths IH]; intros H; simpl; [reflexivity|].
  unfold mbind, script_bind, bind, os_path_exists.
  rewrite (H p) by (now left).
  rewrite bool_decide_eq_false_2 by (intros [? ?]; discriminate).
  apply IH. intros q Hq. apply H. now right.
Qed.

Lemma load_data_from_fails paths w :
  own_failure (fst (eda_report.load_data_from paths w)) ->
  forall p, In p paths -> fs w !! p = None.
Proof.
  induction paths as [|p paths IH]; simpl; [tauto|].
  unfold mbind, script_bind, bind at 1, os_path_exists.
  destruct (fs w !! p) as [f|] eqn:E.
  - rewrite bool_decide_eq_true_2 by eauto. intros H. exfalso. revert H.
    assert (propagates_only
              (bind (print (Text ("Loaded dataset: " +:+ p)))
                 (fun _ => pd_read_csv p))) as Hpo by po.
    exact (Hpo w).
  - rewrite bool_decide_eq_false_2 by (intros [? ?]; discriminate).
    intros H q [<-|Hq]; [exact E | now apply IH].
Qed.

Lemma eda_report_raises_without_dataset w :
  (forall p, In p eda_report.DATA_PATHS_TO_TRY -> fs w !! p = None) ->
  eda_report.main w =
    (Raised dataset_not_found,
     {| fs := fs w; log := log w ++ [MakeDirs eda_report.OUTPUT_DIR] |}).
Proof.
  intros H. unfold eda_report.main, eda_report.load_data, os_makedirs, emit.
  unfold mbind, script_bind. unfold bind at 1. unfold bind at 1.
  rewrite load_data_from_none by exact H. reflexivity.
Qed.

Lemma eda_report_fails_only_without_dataset w :
  own_failure (fst (eda_report.main w)) ->
  forall p, In p eda_report.DATA_PATHS_TO_TRY -> fs w !! p = None.
Proof.
  intros H. unfold eda_report.main in H.
  unfold mbind, script_bind, os_makedirs in H.
  apply own_failure_bind_inv in H as [H | (? & ? & Hrun & H)];
    [now apply po_emit in H|].
  apply emit_returned in Hrun; subst.
  apply own_failure_bind_inv in H as [H | (df & w1 & Hrun & H)].
  - exact (load_data_from_fails _ _ H).
  - exfalso. revert H.
    match goal with
    | |- own_failure (fst (?m w1)) -> False =>
        assert (propagates_only m) as Hpo
          by (unfold eda_report.save_table, eda_report.fig; po);
        exact (Hpo w1)
    end.
Qed.

End Guards.

Section MissingInputs.
Context `{L : Sklearn}.

Ltac missing H :=
  unfold mbind, script_bind, bind, os_makedirs, print, emit, pd_read_csv,
    joblib_load;
  cbn [fs log]; rewrite H; reflexivity.

Lemma train_missing_input w :
  fs w !! "data/data.csv" = None ->
  train_model_clean.main w = (Raised (LibraryError "FileNotFoundError"), w).
Proof. intros H. unfold train_model_clean.main. missing H. Qed.

Lemma validate_cv_missing_input B w :
  fs w !! validate_cv.DATA_PATH B = None ->
  fst (validate_cv.main B w) = Raised (LibraryError "FileNotFoundError").
Proof. intros H. unfold validate_cv.main. missing H. Qed.

Lemma predict_missing_input w :
  fs w !! "model_pipeline.pkl" = None ->
  predict_clean.main w = (Raised (LibraryError "FileNotFoundError"), w).
Proof. intros H. unfold predict_clean.main. missing H. Qed.

Lemma importance_missing_input B w :
  fs w !! feature_importance.MODEL_PATH B = None ->
  fst (feature_importance.main B w) = Raised (LibraryError "FileNotFoundError").
Proof. intros H. unfold feature_importance.main. missing H. Qed.

Lemma demo_missing_input B w :
  fs w !! demo_predict_one.MODEL_PATH B = None ->
  fst (demo_predict_one.main B w) = Raised (LibraryError "FileNotFoundError").
Proof. intros H. unfold demo_predict_one.main. missing H. Qed.

Lemma eda_clean_missing_input w :
  fs w !! "data/data.csv" = None ->
  eda_clean.main w = (Raised (LibraryError "FileNotFoundError"), w).
Proof. intros H. unfold eda_clean.main. missing H. Qed.

Lemma find_target_missing_input w :
  fs w !! "data/data.csv" = None ->
  find_target_clean.main w = (Raised (LibraryError "FileNotFoundError"), w).
Proof. intros H. unfold find_target_clean.main. missing H. Qed.

Lemma plots_missing_input B w :
  fs w !! plots.DATA_PATH B = None ->
  fst (plots.main B w) = Raised (LibraryError "FileNotFoundError").
Proof. intros H. unfold plots.main. missing H. Qed.

End MissingInputs.




(** * What every script reads and reports *)

Section Events.
Context `{L : Sklearn}.

Lemma adds_bind {A B} (m : script A) (k : A -> script B) P Q R :
  adds m P -> (forall a, adds (k a) Q) ->
  (forall e1 e2, P e1 -> Q e2 -> R (e1 ++ e2)) ->
  adds (bind m k) R.
Proof.
  intros Hm Hk HR w b w' H.
  apply bind_returned in H as (a & w1 & H1 & H2).
  destruct (Hm _ _ _ H1) as (e1 & Hl1 & HP).
  destruct (Hk a _ _ _ H2) as (e2 & Hl2 & HQ).
  exists (e1 ++ e2). split; [|now apply HR].
  now rewrite Hl2, Hl1, app_assoc.
Qed.

Lemma only_bind {A B} f (m : script A) (k : A -> script B) :
  only_emits f m -> (forall a, only_emits f (k a)) -> only_emits f (bind m k).
Proof.
  intros Hm Hk. eapply adds_bind; [exact Hm | exact Hk |].
  intros e1 e2 H1 H2. cbn beta in *. now rewrite forallb_app, H1, H2.
Qed.

Lemma emits_bind_l {A B} f (m : script A) (k : A -> script B) :
  emits f m -> (forall a, only_emits anything (k a)) -> emits f (bind m k).
Proof.
  intros Hm Hk. eapply adds_bind; [exact Hm | exact Hk |].
  intros e1 e2 H1 _. cbn beta in *. now rewrite existsb_app, H1.
Qed.

Lemma emits_bind_r {A B} f (m : script A) (k : A -> script B) :
  only_emits anything m -> (forall a, emits f (k a)) -> emits f (bind m k).
Proof.
  intros Hm Hk. eapply adds_bind; [exact Hm | exact Hk |].
  intros e1 e2 _ H2. cbn beta in *. rewrite existsb_app, H2.
  apply orb_true_r.
Qed.

Lemma adds_nothing {A} (m : script A) (P : list event -> Prop) :
  (forall w a w', m w = (Returned a, w') -> w' = w) -> P [] -> adds m P.
Proof.
  intros Hm HP w a w' H. apply Hm in H as ->. exists []. split; [|exact HP].
  now rewrite app_nil_r.
Qed.

Lemma only_ret {A} f (a : A) : only_emits f (ret a).
Proof.
  apply adds_nothing; [|reflexivity].
  intros w b w' H. now apply ret_returned in H.
Qed.

Lemma only_lift {A} f (r : result A) : only_emits f (lift r).
Proof.
  apply adds_nothing; [|reflexivity].
  intros w b w' H. now apply lift_returned in H.
Qed.

Lemma only_exists f path : only_emits f (os_path_exists path).
Proof.
  apply adds_nothing; [|reflexivity].
  intros w b w' H. now apply os_path_exists_returned in H.
Qed.

Lemma adds_exit {A} (P : list event -> Prop) : adds (A := A) exit P.
Proof. intros w a w' H. discriminate. Qed.

Lemma adds_raise {A} t msg (P : list event -> Prop) : adds (A := A) (raise t msg) P.
Proof. intros w a w' H. discriminate. Qed.

Lemma adds_one {A} (m : script A) (e : event) (P : list event -> Prop) :
  (forall w a w', m w = (Returned a, w') -> log w' = log w ++ [e]) ->
  P [e] -> adds m P.
Proof. intros Hm HP w a w' H. exists [e]. split; [now apply Hm in H | exact HP]. Qed.

Lemma adds_emit e (P : list event -> Prop) : P [e] -> adds (emit e) P.
Proof.
  apply adds_one. intros w a w' H. apply emit_returned in H. now subst.
Qed.

Lemma adds_write path f e (P : list event -> Prop) :
  P [e] -> adds (write path f e) P.
Proof.
  apply adds_one. intros w a w' H. apply write_returned in H. now subst.
Qed.

Lemma adds_read_csv path (P : list event -> Prop) :
  P [ReadCsv path] -> adds (pd_read_csv path) P.
Proof.
  apply adds_one. intros w a w' H.
  apply pd_read_csv_returned in H as [_ ->]. reflexivity.
Qed.

Lemma adds_load path (P : list event -> Prop) :
  P [LoadModel path] -> adds (joblib_load path) P.
Proof.
  apply adds_one. intros w a w' H.
  apply joblib_load_returned in H as [_ ->]. reflexivity.
Qed.

Lemma only_for_each {A} f (l : list A) (body : A -> script unit) :
  (forall x, only_emits f (body x)) -> only_emits f (for_each l body).
Proof.
  intros Hb. induction l as [|x l IH]; simpl; [apply only_ret|].
  apply only_bind; [apply Hb | intros _; exact IH].
Qed.

End Events.

Ltac unfold_events :=
  unfold mbind, script_bind, mret, script_ret, print, to_csv, joblib_dump,
    savefig, save_artifact, os_makedirs.

(** A statement that adds one event of the kind looked for, or none. *)
Ltac only_prim :=
  first
    [ apply only_ret | apply only_lift | apply only_exists
    | apply adds_exit | apply adds_raise
    | apply adds_emit; reflexivity | apply adds_write; reflexivity
    | apply adds_read_csv; reflexivity | apply adds_load; reflexivity ].

Ltac only_step :=
  match goal with
  | |- only_emits _ (bind _ _) => apply only_bind; [|intros]
  | |- only_emits _ (for_each _ _) => apply only_for_each; intros
  | |- only_emits _ (if ?b then _ else _) => destruct b
  | |- only_emits _ (match ?p with (_, _) => _ end) => destruct p
  | |- only_emits _ (match ?l with [] => _ | _ :: _ => _ end) => destruct l
  | |- only_emits _ _ => solve [only_prim]
  end.

Ltac only_all := unfold_events; repeat only_step.

Ltac emits_prim :=
  first
    [ apply adds_exit | apply adds_raise
    | apply adds_emit; reflexivity | apply adds_write; reflexivity
    | apply adds_read_csv; reflexivity | apply adds_load; reflexivity ].

(** Find the statement that adds the event: in the first statement, or
    further down. *)
Ltac emits_search :=
  lazymatch goal with
  | |- emits _ (bind _ _) =>
      first
        [ apply emits_bind_l; [solve [emits_prim] | intros; solve [only_all]]
        | apply emits_bind_r; [solve [only_all] | intros; emits_search] ]
  | |- emits _ (if ?b then _ else _) => destruct b; emits_search
  | |- emits _ (match ?p with (_, _) => _ end) => destruct p; emits_search
  | |- emits _ (match ?l with [] => _ | _ :: _ => _ end) =>
      destruct l; emits_search
  | |- emits _ _ => solve [emits_prim]
  end.

Ltac emits_tac := unfold_events; emits_search.

Section EventsOfScripts.
Context `{L : Sklearn}.

Lemma train_reads_csv : emits is_read_csv train_model_clean.main.
Proof. unfold train_model_clean.main. emits_tac. Qed.

Lemma train_reports : emits is_output train_model_clean.main.
Proof. unfold train_model_clean.main. emits_tac. Qed.

Lemma validate_cv_reads_csv B : emits is_read_csv (validate_cv.main B).
Proof. unfold validate_cv.main. emits_tac. Qed.

Lemma validate_cv_reports B : emits is_output (validate_cv.main B).
Proof. unfold validate_cv.main. emits_tac. Qed.

Lemma predict_reads_csv : emits is_read_csv predict_clean.main.
Proof. unfold predict_clean.main. emits_tac. Qed.

Lemma predict_reports : emits is_output predict_clean.main.
Proof. unfold predict_clean.main. emits_tac. Qed.

Lemma check_reads_csv : emits is_read_csv check_model_accuracy.main.
Proof.
  unfold check_model_accuracy.main, check_model_accuracy.check_model_exists,
    check_model_accuracy.report.
  emits_tac.
Qed.

Lemma check_reports : emits is_output check_model_accuracy.main.
Proof.
  unfold check_model_accuracy.main, check_model_accuracy.check_model_exists,
    check_model_accuracy.report.
  emits_tac.
Qed.

Lemma demo_reads_csv B : emits is_read_csv (demo_predict_one.main B).
Proof. unfold demo_predict_one.main. emits_tac. Qed.

Lemma demo_reports B : emits is_output (demo_predict_one.main B).
Proof. unfold demo_predict_one.main. emits_tac. Qed.

Lemma eda_clean_reads_csv : emits is_read_csv eda_clean.main.
Proof. unfold eda_clean.main. emits_tac. Qed.

Lemma eda_clean_reports : emits is_output eda_clean.main.
Proof. unfold eda_clean.main. emits_tac. Qed.

Lemma find_target_reads_csv : emits is_read_csv find_target_clean.main.
Proof. unfold find_target_clean.main. emits_tac. Qed.

Lemma find_target_reports : emits is_output find_target_clean.main.
Proof. unfold find_target_clean.main. emits_tac. Qed.

Lemma plots_reads_csv B : emits is_read_csv (plots.main B).
Proof. unfold plots.main. emits_tac. Qed.

Lemma plots_reports B : emits is_output (plots.main B).
Proof. unfold plots.main. emits_tac. Qed.

(** [load_data] returns only by reading one of the candidate files. *)
Lemma load_data_from_reads_csv paths :
  emits is_read_csv (eda_report.load_data_from paths).
Proof.
  induction paths as [|p paths IH]; simpl; [apply adds_raise|].
  unfold_events. apply emits_bind_r; [only_all|]. intros [|]; [|exact IH].
  apply emits_bind_r; [only_all | intros; emits_prim].
Qed.

Lemma load_data_from_any paths :
  only_emits anything (eda_report.load_data_from paths).
Proof.
  induction paths as [|p paths IH]; simpl; [apply adds_raise|].
  unfold_events. apply only_bind; [only_all|]. intros [|]; [only_all | exact IH].
Qed.

Lemma eda_report_reads_csv : emits is_read_csv eda_report.main.
Proof.
  unfold eda_report.main, eda_report.load_data. unfold_events.
  apply emits_bind_r; [only_all|]. intros _.
  apply emits_bind_l; [apply load_data_from_reads_csv|].
  intros df. unfold eda_report.save_table, eda_report.fig. only_all.
Qed.

Lemma eda_report_reports : emits is_output eda_report.main.
Proof.
  unfold eda_report.main, eda_report.load_data. unfold_events.
  apply emits_bind_r; [only_all|]. intros _.
  apply emits_bind_r; [apply load_data_from_any|]. intros df.
  unfold eda_report.save_table, eda_report.fig. emits_tac.
Qed.

Lemma importance_reads_no_csv B :
  only_emits not_read_csv (feature_importance.main B).
Proof. unfold feature_importance.main. only_all. Qed.

Lemma importance_loads_model B :
  emits is_load_model (feature_importance.main B).
Proof. unfold feature_importance.main. emits_tac. Qed.

Lemma importance_prints B : emits is_print (feature_importance.main B).
Proof. unfold feature_importance.main. emits_tac. Qed.

Lemma importance_writes B : emits is_write (feature_importance.main B).
Proof. unfold feature_importance.main. emits_tac. Qed.

End EventsOfScripts.

(** C7, as the code has it: nine of the ten scripts read a CSV and print
    or write results on every run that returns.  The feature-importance
    script reads no CSV: its only input is the pickled pipeline, from which
    it prints and writes the importance table. *)
Theorem scripts_read_and_report `{L : Sklearn} (BASE_DIR : string) :
  (emits is_read_csv train_model_clean.main /\
   emits is_output train_model_clean.main) /\
  (emits is_read_csv (validate_cv.main BASE_DIR) /\
   emits is_output (validate_cv.main BASE_DIR)) /\
  (emits is_read_csv predict_clean.main /\
   emits is_output predict_clean.main) /\
  (emits is_read_csv check_model_accuracy.main /\
   emits is_output check_model_accuracy.main) /\
  (emits is_read_csv (demo_predict_one.main BASE_DIR) /\
   emits is_output (demo_predict_one.main BASE_DIR)) /\
  (emits is_read_csv eda_clean.main /\ emits is_output eda_clean.main) /\
  (emits is_read_csv find_target_clean.main /\
   emits is_output find_target_clean.main) /\
  (emits is_read_csv (plots.main BASE_DIR) /\
   emits is_output (plots.main BASE_DIR)) /\
  (emits is_read_csv eda_report.main /\ emits is_output eda_report.main) /\
  (only_emits not_read_csv (feature_importance.main BASE_DIR) /\
   emits is_load_model (feature_importance.main BASE_DIR) /\
   emits is_print (feature_importance.main BASE_DIR) /\
   emits is_write (feature_importance.main BASE_DIR)).
Proof.
  repeat split.
  - apply train_reads_csv.
  - apply train_reports.
  - apply validate_cv_reads_csv.
  - apply validate_cv_reports.
  - apply predict_reads_csv.
  - apply predict_reports.
  - apply check_reads_csv.
  - apply check_reports.
  - apply demo_reads_csv.
  - apply demo_reports.
  - apply eda_clean_reads_csv.
  - apply eda_clean_reports.
  - apply find_target_reads_csv.
  - apply find_target_reports.
  - apply plots_reads_csv.
  - apply plots_reports.
  - apply eda_report_reads_csv.
  - apply eda_report_reports.
  - apply importance_reads_no_csv.
  - apply importance_loads_model.
  - apply importance_prints.
  - apply importance_writes.
Qed.

(** The feature-importance script returns without reading any CSV: in a
    directory that holds only a saved pipeline it loads the pipeline, and
    prints and writes the table. *)
Lemma feature_importance_reads_no_csv :
  fst (feature_importance.main (L := Reference.lib) EmptyString
         Reference.model_only)
    = Returned [("district_name", (7 # 10)%Q); ("total_area", (3 # 10)%Q)] /\
  existsb is_read_csv
    (log (snd (feature_importance.main (L := Reference.lib) EmptyString
                 Reference.model_only))) = false /\
  ~ emits is_read_csv
      (feature_importance.main (L := Reference.lib) EmptyString).
Proof.
  split; [vm_compute; reflexivity|]. split; [vm_compute; reflexivity|].
  intros H.
  destruct (H Reference.model_only
              [("district_name", (7 # 10)%Q); ("total_area", (3 # 10)%Q)]
              (snd (feature_importance.main (L := Reference.lib) EmptyString
                      Reference.model_only)))
    as (evs & Hlog & Hevs);
    [apply run_pair, reference_importance_run; vm_compute; reflexivity|].
  change (log Reference.model_only ++ evs) with evs in Hlog.
  rewrite <- Hlog in Hevs. vm_compute in Hevs. discriminate.
Qed.

(** * Further properties of the scripts *)

(** ** What the scripts leave alone *)

Section Files.
Context `{L : Sklearn}.

Lemma preserves_bind {A B} keep (m : script A) (k : A -> script B) :
  preserves keep m -> (forall a, preserves keep (k a)) ->
  preserves keep (bind m k).
Proof.
  intros Hm Hk w p Hp. unfold bind. specialize (Hm w p Hp).
  destruct (m w) as [[a|e|] w1]; simpl in *; [|exact Hm|exact Hm].
  now rewrite (Hk a w1 p Hp).
Qed.

Lemma preserves_same {A} keep (m : script A) :
  (forall w, fs (snd (m w)) = fs w) -> preserves keep m.
Proof. intros H w p _. now rewrite H. Qed.

Lemma same_ret {A} (a : A) w : fs (snd (ret a w)) = fs w.
Proof. reflexivity. Qed.

Lemma same_lift {A} (r : result A) w : fs (snd (lift r w)) = fs w.
Proof. unfold lift. now destruct r. Qed.

Lemma same_emit e w : fs (snd (emit e w)) = fs w.
Proof. reflexivity. Qed.

Lemma same_exists path w : fs (snd (os_path_exists path w)) = fs w.
Proof. reflexivity. Qed.

Lemma same_exit {A} w : fs (snd (exit (A := A) w)) = fs w.
Proof. reflexivity. Qed.

Lemma same_raise {A} t msg w : fs (snd (raise (A := A) t msg w)) = fs w.
Proof. reflexivity. Qed.

Lemma same_read_csv path w : fs (snd (pd_read_csv path w)) = fs w.
Proof. unfold pd_read_csv. now destruct (fs w !! path) as [[| |]|]. Qed.

Lemma same_load path w : fs (snd (joblib_load path w)) = fs w.
Proof. unfold joblib_load. now destruct (fs w !! path) as [[| |]|]. Qed.

Lemma preserves_write keep path f e :
  keep path = false -> preserves keep (write path f e).
Proof.
  intros Hk w p Hp. unfold write. simpl.
  apply lookup_insert_ne. intros ->. congruence.
Qed.

Lemma preserves_for_each {A} keep (l : list A) (body : A -> script unit) :
  (forall x, preserves keep (body x)) -> preserves keep (for_each l body).
Proof.
  intros Hb. induction l as [|x l IH]; simpl.
  - apply preserves_same, same_ret.
  - apply preserves_bind; [apply Hb | intros _; exact IH].
Qed.

Lemma preserves_all_keeps {A} (m : script A) :
  preserves (fun _ => true) m -> keeps_files m.
Proof. intros H w. apply map_eq. intros p. now apply H. Qed.

End Files.

(** A statement that writes nothing, or writes at a path outside [keep]. *)
Ltac preserves_prim :=
  first
    [ apply preserves_same; intros;
      first [ apply same_ret | apply same_lift | apply same_emit
            | apply same_exists | apply same_exit | apply same_raise
            | apply same_read_csv | apply same_load ]
    | apply preserves_write; reflexivity ].

Ltac preserves_step :=
  match goal with
  | |- preserves _ (bind _ _) => apply preserves_bind; [|intros]
  | |- preserves _ (for_each _ _) => apply preserves_for_each; intros
  | |- preserves _ (if ?b then _ else _) => destruct b
  | |- preserves _ (match ?p with (_, _) => _ end) => destruct p
  | |- preserves _ (match ?l with [] => _ | _ :: _ => _ end) => destruct l
  | |- preserves _ _ => solve [preserves_prim]
  end.

Ltac preserves_all :=
  unfold mbind, script_bind, mret, script_ret, print, to_csv, joblib_dump,
    savefig, save_artifact, os_makedirs;
  repeat preserves_step.

Section ReadOnly.
Context `{L : Sklearn}.

Lemma load_data_from_preserves keep paths :
  preserves keep (eda_report.load_data_from paths).
Proof.
  induction paths as [|p paths IH]; simpl.
  - apply preserves_same. intros w. apply same_raise.
  - unfold mbind, script_bind. apply preserves_bind; [preserves_all|].
    intros [|]; [preserves_all | exact IH].
Qed.

End ReadOnly.

(** X1: five scripts only read.  Whatever is in the directory and however
    the run ends, the cross-validation script, the accuracy check, the
    one-row demo, the first-look EDA script and the target finder leave
    every file as it was. *)
Theorem read_only_scripts `{L : Sklearn} (BASE_DIR : string) :
  keeps_files (validate_cv.main BASE_DIR) /\
  keeps_files check_model_accuracy.main /\
  keeps_files (demo_predict_one.main BASE_DIR) /\
  keeps_files eda_clean.main /\
  keeps_files find_target_clean.main.
Proof.
  repeat split; apply preserves_all_keeps.
  - unfold validate_cv.main. preserves_all.
  - unfold check_model_accuracy.main, check_model_accuracy.check_model_exists,
      check_model_accuracy.report.
    preserves_all.
  - unfold demo_predict_one.main. preserves_all.
  - unfold eda_clean.main. preserves_all.
  - unfold find_target_clean.main. preserves_all.
Qed.

(** X2: the scripts that write keep to their own outputs.  The training
    script changes no file but [model_pipeline.pkl], the batch prediction
    none but [submission.csv], the feature-importance script none but its
    top-20 CSV, the EDA report none outside [outputs_eda/], and the plots
    script none but its five figures. *)
Theorem writes_are_confined `{L : Sklearn} (BASE_DIR : string) :
  preserves (fun p => negb (String.eqb p "model_pipeline.pkl"))
    train_model_clean.main /\
  preserves (fun p => negb (String.eqb p "submission.csv"))
    predict_clean.main /\
  preserves (fun p => negb (String.eqb p (feature_importance.OUT_CSV BASE_DIR)))
    (feature_importance.main BASE_DIR) /\
  preserves (fun p => negb (String.prefix "outputs_eda/" p)) eda_report.main /\
  preserves (fun p => negb (mem p (plots_outputs BASE_DIR)))
    (plots.main BASE_DIR).
Proof.
  split; [unfold train_model_clean.main; preserves_all|].
  split; [unfold predict_clean.main; preserves_all|].
  split.
  { unfold feature_importance.main. preserves_all.
    apply preserves_write. now rewrite String.eqb_refl. }
  split.
  { unfold eda_report.main, eda_report.load_data, eda_report.save_table,
      eda_report.fig.
    unfold mbind, script_bind, os_makedirs.
    apply preserves_bind; [preserves_all|]. intros _.
    apply preserves_bind; [apply load_data_from_preserves|]. intros df.
    preserves_all. }
  unfold plots.main. preserves_all;
    apply preserves_write; unfold plots_outputs, mem; cbn [existsb];
    rewrite String.eqb_refl, ?orb_true_r; reflexivity.
Qed.

(** ** Outputs appear only when the run succeeds *)

Ltac unfold_run :=
  unfold mbind, script_bind, bind, pd_read_csv, joblib_load, lift, print,
    emit, to_csv, joblib_dump, write, mret, script_ret, ret; cbn [fs log].

Ltac failed_run := right; split; [intros ? ?; discriminate | reflexivity].



(** ** Columns the scripts cannot do without *)

(** X5: the training script, the cross-validation script and the accuracy
    check all drop [price] and [index] by name, without looking first.  On
    a training table that lacks either column each of them ends in the
    library's [KeyError] right after reading the table: nothing is split,
    fit or scored, and the training script has printed nothing.  (The batch
    prediction, by contrast, looks for [index] before dropping it.) *)
Theorem training_table_needs_price_and_index `{L : Sklearn}
    (BASE_DIR : string) (w : world) (df : DataFrame) (model : FittedPipeline)
    (Hcol : has_column "price" df = false \/ has_column "index" df = false)
    (Hdata : fs w !! "data/data.csv" = Some (CsvFile df))
    (Hcv : fs w !! validate_cv.DATA_PATH BASE_DIR = Some (CsvFile df))
    (Hmodel : fs w !! "model_pipeline.pkl" = Some (PickleFile model)) :
  PandasOps.drop ["price"; "index"] df = Error "KeyError" /\
  train_model_clean.main w =
    (Raised (LibraryError "KeyError"),
     {| fs := fs w; log := log w ++ [ReadCsv "data/data.csv"] |}) /\
  validate_cv.main BASE_DIR w =
    (Raised (LibraryError "KeyError"),
     {| fs := fs w;
        log := log w ++ validate_cv_banner BASE_DIR
                 ++ [ReadCsv (validate_cv.DATA_PATH BASE_DIR)] |}) /\
  fst (check_model_accuracy.main w) = Raised (LibraryError "KeyError").
Proof.
  assert (PandasOps.drop ["price"; "index"] df = Error "KeyError") as Hdrop.
  { destruct Hcol as [H|H].
    - apply (drop_missing _ _ "price"); [now left | exact H].
    - apply (drop_missing _ _ "index"); [right; now left | exact H]. }
  split; [exact Hdrop|]. split; [|split].
  - unfold train_model_clean.main. unfold_run. rewrite Hdata. cbn [fs log].
    unfold train_model_clean.TARGET. now rewrite Hdrop.
  - unfold validate_cv.main. unfold_run. rewrite Hcv. cbn [fs log].
    unfold validate_cv.TARGET. rewrite Hdrop. cbn.
    unfold validate_cv_banner. now rewrite <- !app_assoc.
  - unfold check_model_accuracy.main, check_model_accuracy.check_model_exists.
    unfold_run. unfold os_path_exists. cbn [fs log]. rewrite Hmodel.
    rewrite bool_decide_eq_true_2 by eauto. cbn. rewrite Hmodel. cbn.
    rewrite Hdata. cbn. now rewrite Hdrop.
Qed.

Lemma training_table_needs_price_and_index_witness :
  train_model_clean.main (L := Reference.lib)
    (Reference.with_file "model_pipeline.pkl" (PickleFile Reference.fitted)
       Reference.headless)
  = (Raised (LibraryError "KeyError"),
     {| fs := fs (Reference.with_file "model_pipeline.pkl"
                    (PickleFile Reference.fitted) Reference.headless);
        log := [ReadCsv "data/data.csv"] |}).
Proof.
  refine (proj1 (proj2
    (training_table_needs_price_and_index (L := Reference.lib) EmptyString
       (Reference.with_file "model_pipeline.pkl" (PickleFile Reference.fitted)
          Reference.headless)
       Reference.test_no_index Reference.fitted _ _ _ _)));
    try (vm_compute; reflexivity).
  left. reflexivity.
Defined.

(** ** Finding the target column *)

Section TargetFacts.

Lemma filter_only (l : list string) (x : string) :
  List.NoDup l -> In x l ->
  List.filter (fun c => String.eqb c x) l = [x].
Proof.
  induction l as [|y l IH]; simpl; [tauto|].
  intros Hnd Hin. inversion Hnd as [|? ? Hnotin Hnd']; subst.
  destruct (String.eqb_spec y x) as [->|Hne].
  - f_equal. clear IH Hin Hnd Hnd'.
    induction l as [|z l IH]; simpl; [reflexivity|].
    destruct (String.eqb_spec z x) as [->|_].
    + exfalso. apply Hnotin. now left.
    + apply IH. intros H. apply Hnotin. now right.
  - destruct Hin as [->|Hin]; [congruence|]. now apply IH.
Qed.

End TargetFacts.

(** X6: the target finder reports the training columns that the test table
    lacks, in the order of the training table, and takes the first as the
    target.  When the test table has exactly the training columns but
    [price], each under one name, the only column reported is [price]: the
    target the other scripts hard-code.  The script cannot fail once both
    CSV files are read: with no column missing from the test table it
    prints that no target was found and returns. *)
Theorem target_finder_finds_price `{L : Sklearn}
    (w : world) (train_df test_df : DataFrame)
    (Htrain : fs w !! "data/data.csv" = Some (CsvFile train_df))
    (Htest : fs w !! "data/test.csv" = Some (CsvFile test_df)) :
  (forall c, In c (find_target_clean.target_cols train_df test_df) <->
             In c (column_names train_df) /\ ~ In c (column_names test_df)) /\
  (exists w',
     find_target_clean.main w
       = (Returned (find_target_clean.target_cols train_df test_df), w') /\
     fs w' = fs w /\
     (find_target_clean.target_cols train_df test_df = [] ->
      In (Print (Text "No target column found.")) (log w')) /\
     (forall TARGET rest,
        find_target_clean.target_cols train_df test_df = TARGET :: rest ->
        In (Print (Text ("Target: " +:+ TARGET))) (log w'))) /\
  (List.NoDup (column_names train_df) ->
   In "price" (column_names train_df) ->
   (forall c, In c (column_names test_df) <->
              In c (column_names train_df) /\ c <> "price") ->
   find_target_clean.target_cols train_df test_df = ["price"]).
Proof.
  split; [|split].
  - intros c. unfold find_target_clean.target_cols.
    rewrite filter_In, negb_true_iff, mem_false. reflexivity.
  - unfold find_target_clean.main. unfold_run. rewrite Htrain. cbn [fs log].
    rewrite Htest. cbn [fs log].
    destruct (find_target_clean.target_cols train_df test_df) as [|T rest];
      cbn; eexists; (split; [reflexivity|]); cbn [fs log];
      (split; [reflexivity|]); split; intros; try discriminate;
      rewrite !in_app_iff; cbn [In].
    + tauto.
    + match goal with H : _ :: _ = _ :: _ |- _ => injection H as <- <- end.
      tauto.
  - intros Hnd Hprice Hcols. unfold find_target_clean.target_cols.
    rewrite <- (filter_only (column_names train_df) "price" Hnd Hprice).
    apply filter_ext_in. intros c Hc.
    destruct (String.eqb_spec c "price") as [->|Hne].
    + apply negb_true_iff, mem_false. rewrite Hcols. tauto.
    + apply negb_false_iff, mem_In. rewrite Hcols. tauto.
Qed.

Lemma target_finder_finds_price_witness :
  find_target_clean.target_cols Reference.data Reference.test = ["price"] /\
  exists w',
    find_target_clean.main (L := Reference.lib) Reference.fresh
      = (Returned ["price"], w').
Proof.
  destruct (target_finder_finds_price (L := Reference.lib) Reference.fresh
              Reference.data Reference.test)
    as (_ & (w' & Hrun & _) & _); try (vm_compute; reflexivity).
  split; [reflexivity|]. exists w'. exact Hrun.
Defined.

(** ** The features kept and the features left out *)

Section TopFacts.

Lemma skipn_In {A} (n : nat) (l : list A) (x : A) : In x (skipn n l) -> In x l.
Proof.
  intros H. rewrite <- (firstn_skipn n l). apply in_or_app. now right.
Qed.

(** In a sorted list, what is cut off after the first [n] elements may
    stand after each of them. *)
Lemma sorted_firstn_skipn {A} (R : A -> A -> Prop) (n : nat) (l : list A) :
  StronglySorted R l ->
  forall p q, In p (firstn n l) -> In q (skipn n l) -> R p q.
Proof.
  revert l. induction n as [|n IH]; intros l Hs p q Hp Hq; simpl in *; [tauto|].
  destruct l as [|x l]; simpl in *; [tauto|].
  inversion Hs as [|? ? Hs' Hall]; subst.
  destruct Hp as [->|Hp]; [|now apply (IH l)].
  rewrite List.Forall_forall in Hall. apply Hall. now apply (skipn_In n).
Qed.

End TopFacts.



(** ** From the training script to the feature-importance script *)



(** ** Where the EDA report takes its data from *)

Section Candidates.
Context `{L : Sklearn}.

Lemma load_data_from_first (pre post : list string) (p : string) (f : file)
    (w : world) :
  (forall q, In q pre -> fs w !! q = None) ->
  fs w !! p = Some f ->
  eda_report.load_data_from (pre ++ p :: post) w =
    match f with
    | CsvFile df =>
        (Returned df,
         {| fs := fs w;
            log := log w ++ [Print (Text ("Loaded dataset: " +:+ p)); ReadCsv p] |})
    | _ =>
        (Raised (LibraryError "ParserError"),
         {| fs := fs w;
            log := log w ++ [Print (Text ("Loaded dataset: " +:+ p))] |})
    end.
Proof.
  intros Hnone Hp. induction pre as [|q pre IH]; simpl.
  - unfold mbind, script_bind, bind, os_path_exists, print, emit, pd_read_csv.
    rewrite Hp, bool_decide_eq_true_2 by eauto. cbn [fs log]. rewrite Hp.
    destruct f; [now rewrite <- app_assoc | reflexivity | reflexivity].
  - unfold mbind, script_bind, bind at 1, os_path_exists.
    rewrite (Hnone q) by (now left).
    rewrite bool_decide_eq_false_2 by (intros [? ?]; discriminate).
    apply IH. intros q' Hq'. apply Hnone. now right.
Qed.

End Candidates.

(** X9: the EDA report reads the first of its four candidate paths that
    exists, in the order [data/train.csv], [data/train_clean.csv],
    [train.csv], [train_clean.csv], and announces which.  It does not try
    the later candidates when the first one that exists cannot be read as
    a CSV: the library's exception ends the run. *)
Theorem eda_report_reads_first_candidate `{L : Sklearn}
    (w : world) (pre post : list string) (p : string) (f : file)
    (Hpaths : eda_report.DATA_PATHS_TO_TRY = pre ++ p :: post)
    (Hnone : forall q, In q pre -> fs w !! q = None)
    (Hsome : fs w !! p = Some f) :
  eda_report.load_data w =
    match f with
    | CsvFile df =>
        (Returned df,
         {| fs := fs w;
            log := log w ++ [Print (Text ("Loaded dataset: " +:+ p)); ReadCsv p] |})
    | _ =>
        (Raised (LibraryError "ParserError"),
         {| fs := fs w;
            log := log w ++ [Print (Text ("Loaded dataset: " +:+ p))] |})
    end.
Proof.
  unfold eda_report.load_data. rewrite Hpaths.
  now apply load_data_from_first.
Qed.

Lemma eda_report_reads_first_candidate_witness :
  eda_report.load_data (L := Reference.lib) Reference.third_candidate =
    (Returned Reference.data,
     {| fs := fs Reference.third_candidate;
        log := [Print (Text "Loaded dataset: train.csv"); ReadCsv "train.csv"] |}).
Proof.
  apply (eda_report_reads_first_candidate (L := Reference.lib)
           Reference.third_candidate
           ["data/train.csv"; "data/train_clean.csv"] ["train_clean.csv"]
           "train.csv" (CsvFile Reference.data)).
  - reflexivity.
  - intros q [<-|[<-|[]]]; vm_compute; reflexivity.
  - vm_compute. reflexivity.
Defined.

(** ** Every feature column has its transformer *)

Section Assignment.

Lemma split_by_dtype (cols : list (string * dtype)) (cat : list string) :
  (forall c d, In (c, d) cols -> (mem c cat = true <-> d = object)) ->
  Permutation
    (List.filter (fun c => negb (mem c cat)) (map fst cols) ++
     map fst (List.filter (fun cd => dtype_eqb (snd cd) object) cols))
    (map fst cols).
Proof.
  induction cols as [|[c d] cols IH]; intros H; simpl; [constructor|].
  assert (Permutation
            (List.filter (fun c => negb (mem c cat)) (map fst cols) ++
             map fst (List.filter (fun cd => dtype_eqb (snd cd) object) cols))
            (map fst cols)) as IH'.
  { apply IH. intros c' d' Hin. apply H. now right. }
  destruct (H c d (or_introl eq_refl)) as [H1 H2].
  destruct d; simpl.
  - rewrite H2 by reflexivity. simpl.
    apply Permutation_sym, Permutation_cons_app, Permutation_sym, IH'.
  - destruct (mem c cat); [specialize (H1 eq_refl); discriminate|].
    simpl. now constructor.
  - destruct (mem c cat); [specialize (H1 eq_refl); discriminate|].
    simpl. now constructor.
  - destruct (mem c cat); [specialize (H1 eq_refl); discriminate|].
    simpl. now constructor.
Qed.

End Assignment.

(** X10: the two column lists the training script prints, and hands to the
    column transformer, divide the feature columns between them.  When the
    columns have distinct names, as [read_csv] gives them, the numerical
    and the categorical columns together are all the feature columns, each
    once, so the two counts printed add up to the number of features and
    no column is imputed twice or left out.  The cross-validation script
    computes the same two lists. *)
Theorem feature_columns_are_divided (X : DataFrame)
    (Hnames : List.NoDup (column_names X)) :
  Permutation (train_model_clean.num_cols X ++ train_model_clean.cat_cols X)
    (column_names X) /\
  length (train_model_clean.num_cols X) + length (train_model_clean.cat_cols X)
    = length (columns X) /\
  (forall c, ~ (In c (train_model_clean.num_cols X) /\
                In c (train_model_clean.cat_cols X))) /\
  validate_cv.num_cols X = train_model_clean.num_cols X /\
  validate_cv.cat_cols X = train_model_clean.cat_cols X.
Proof.
  assert (Permutation
            (train_model_clean.num_cols X ++ train_model_clean.cat_cols X)
            (column_names X)) as Hperm.
  { unfold train_model_clean.num_cols, train_model_clean.cat_cols at 2,
      PandasOps.object_columns, column_names.
    apply split_by_dtype. intros c d Hin. rewrite mem_In, cat_cols_In.
    split.
    - intros Ho. exact (unique_dtype _ _ _ _ Hnames Hin Ho).
    - now intros ->. }
  split; [exact Hperm|]. split; [|split; [|split; reflexivity]].
  - apply Permutation_length in Hperm.
    rewrite length_app in Hperm. unfold column_names in Hperm.
    now rewrite length_map in Hperm.
  - intros c [Hnum Hcat]. apply num_cols_In in Hnum. tauto.
Qed.

Lemma feature_columns_are_divided_witness :
  length (train_model_clean.num_cols
            {| columns := [("total_area", float64); ("district_name", object)];
               rows := [] |})
  + length (train_model_clean.cat_cols
              {| columns := [("total_area", float64); ("district_name", object)];
                 rows := [] |})
  = 2.
Proof.
  refine (proj1 (proj2 (feature_columns_are_divided
            {| columns := [("total_area", float64); ("district_name", object)];
               rows := [] |} _))).
  repeat constructor; simpl; intuition discriminate.
Defined.

(** ** The figures of the plots script *)

Section PlotsFacts.
Context `{L : Sklearn}.

(** Dropping columns does not change which other columns there are. *)
Lemma has_column_after_drop (labels : list string) (df X : DataFrame)
    (c : string) :
  PandasOps.drop labels df = Ok X -> mem c labels = false ->
  has_column c X = has_column c df.
Proof.
  intros Hdrop Hc. apply drop_Ok in Hdrop as (_ & _ & Hcols).
  destruct (has_column c X) eqn:HX, (has_column c df) eqn:Hdf; try reflexivity.
  - apply has_column_In in HX. rewrite Hcols in HX.
    apply filter_In in HX as [HX _]. apply has_column_In in HX. congruence.
  - apply has_column_In in Hdf.
    assert (has_column c X = true) as H; [|congruence].
    apply has_column_In. rewrite Hcols. apply filter_In.
    split; [exact Hdf | now rewrite Hc].
Qed.

Lemma drop_Ok_has (labels : list string) (df X : DataFrame) (l : string) :
  PandasOps.drop labels df = Ok X -> In l labels -> has_column l df = true.
Proof.
  intros H Hin. apply drop_Ok in H as (Hall & _).
  rewrite List.Forall_forall in Hall. now apply Hall.
Qed.

End PlotsFacts.

(** X11: which figures the plots script saves is decided by the columns of
    the table.  A run that returns has read a table with a [price] column
    and has saved the two price histograms and the correlation heatmap, the
    scatter plot exactly when there is a [total_area] column and the box
    plot exactly when there is a [district_name] column, in this order and
    nothing else; an [index] column is dropped first when there is one and
    changes nothing of this. *)
Theorem plots_figures_follow_columns `{L : Sklearn}
    (BASE_DIR : string) (w w' : world) (u : unit)
    (Hrun : plots.main BASE_DIR w = (Returned u, w')) :
  exists df,
    fs w !! plots.DATA_PATH BASE_DIR = Some (CsvFile df) /\
    has_column "price" df = true /\
    log w' =
      log w ++
      [MakeDirs (plots.OUT_DIR BASE_DIR); ReadCsv (plots.DATA_PATH BASE_DIR)] ++
      map SaveFig (plots_figures BASE_DIR df) ++
      [Print (Text ("Saved graphs into: " +:+ plots.OUT_DIR BASE_DIR));
       Print (Text "Files created:");
       Print (Summary "sorted(os.listdir(OUT_DIR))")].
Proof.
  revert Hrun. unfold plots.main. unfold_run.
  unfold os_makedirs, savefig, emit, write. cbn [fs log].
  destruct (fs w !! plots.DATA_PATH BASE_DIR) as [[df|?|]|] eqn:Hf; cbn;
    try discriminate.
  destruct (has_column "index" df) eqn:Hidx; cbn.
  - destruct (PandasOps.drop ["index"] df) as [dfn|e] eqn:Hd; cbn;
      try discriminate.
    unfold plots.TARGET.
    destruct (PandasOps.drop ["price"] dfn) as [X|e] eqn:HX; cbn;
      try discriminate.
    destruct (PandasOps.getitem "price" dfn) as [y|e]; cbn; try discriminate.
    assert (has_column "price" df = true) as Hprice.
    { rewrite <- (has_column_after_drop _ _ _ "price" Hd) by reflexivity.
      apply (drop_Ok_has _ _ _ "price" HX). now left. }
    intros Hrun. exists df. split; [reflexivity|]. split; [exact Hprice|].
    unfold plots_figures.
    rewrite <- (has_column_after_drop _ _ _ "total_area" Hd) by reflexivity.
    rewrite <- (has_column_after_drop _ _ _ "district_name" Hd) by reflexivity.
    revert Hrun.
    destruct (has_column "total_area" dfn), (has_column "district_name" dfn);
      cbn; intros [= _ <-]; cbn [log]; rewrite <- ?app_assoc; reflexivity.
  - unfold plots.TARGET.
    destruct (PandasOps.drop ["price"] df) as [X|e] eqn:HX; cbn;
      try discriminate.
    destruct (PandasOps.getitem "price" df) as [y|e]; cbn; try discriminate.
    assert (has_column "price" df = true) as Hprice.
    { apply (drop_Ok_has _ _ _ "price" HX). now left. }
    intros Hrun. exists df. split; [reflexivity|]. split; [exact Hprice|].
    unfold plots_figures. revert Hrun.
    destruct (has_column "total_area" df), (has_column "district_name" df);
      cbn; intros [= _ <-]; cbn [log]; rewrite <- ?app_assoc; reflexivity.
Qed.

Lemma plots_figures_follow_columns_witness :
  exists df,
    fs Reference.fresh !! plots.DATA_PATH EmptyString = Some (CsvFile df) /\
    has_column "price" df = true.
Proof.
  destruct (plots_figures_follow_columns (L := Reference.lib) EmptyString
              Reference.fresh
              (snd (plots.main (L := Reference.lib) EmptyString Reference.fresh))
              tt)
    as (df & Hf & Hprice & _).
  - apply run_pair. vm_compute. reflexivity.
  - exists df. split; assumption.
Defined.

(** ** The row the demo predicts on *)

(** X12: the one-row demo predicts on the first row of the training table,
    with [price] removed and [index] removed when the table has one, and
    shows the first prediction the pipeline makes for it.  A table without
    a [price] column ends the run in [KeyError] and a table without rows in
    [IndexError], both before the pipeline is asked anything. *)
Theorem demo_predicts_on_first_row `{L : Sklearn}
    (BASE_DIR : string) (w : world) (model : FittedPipeline) (df : DataFrame)
    (Hmodel : fs w !! demo_predict_one.MODEL_PATH BASE_DIR
              = Some (PickleFile model))
    (Hdata : fs w !! demo_predict_one.DATA_PATH BASE_DIR = Some (CsvFile df)) :
  (has_column "price" df = false ->
   fst (demo_predict_one.main BASE_DIR w) = Raised (LibraryError "KeyError")) /\
  (has_column "price" df = true -> rows df = [] ->
   fst (demo_predict_one.main BASE_DIR w) = Raised (LibraryError "IndexError")) /\
  (forall r rest,
     has_column "price" df = true -> rows df = r :: rest ->
     len (demo_sample df r) = 1 /\
     has_column "price" (demo_sample df r) = false /\
     has_column "index" (demo_sample df r) = false /\
     fst (demo_predict_one.main BASE_DIR w) =
       Spec.outcome_of
         (result_bind (Pipeline_predict model (demo_sample df r))
            demo_predict_one.first)).
Proof.
  split; [|split].
  - intros Hno. unfold demo_predict_one.main. unfold_run. rewrite Hmodel.
    cbn [fs log]. rewrite Hdata.
    rewrite (drop_missing ["price"] df "price") by (now left || assumption).
    reflexivity.
  - intros Hyes Hrows. unfold demo_predict_one.main. unfold_run.
    rewrite Hmodel. cbn [fs log]. rewrite Hdata.
    rewrite (drop_present ["price"] df) by (repeat constructor; exact Hyes).
    cbn. unfold demo_predict_one.first_row. cbn. rewrite Hrows. reflexivity.
  - intros r rest Hyes Hrows.
    assert (PandasOps.drop ["price"] df
            = Ok (select (fun c => negb (mem c ["price"])) df)) as Hdrop
      by (apply drop_present; repeat constructor; exact Hyes).
    remember (select (fun c => negb (mem c ["price"])) df) as no_price
      eqn:Hno_price.
    remember {| columns := columns no_price;
                rows := [project (fun c => negb (mem c ["price"]))
                           (columns df) r] |} as one eqn:Hone.
    assert (demo_predict_one.first_row no_price = Ok one) as Hfirst.
    { unfold demo_predict_one.first_row. rewrite Hno_price. simpl.
      rewrite Hrows. simpl. rewrite Hone, Hno_price. reflexivity. }
    assert (has_column "price" one = false) as Hone_price.
    { rewrite Hone.
      exact (dropped_gone _ _ _ "price" Hdrop (or_introl eq_refl)). }
    assert (has_column "index" one = has_column "index" no_price) as Hone_idx
      by (rewrite Hone; reflexivity).
    assert (len one = 1) as Hone_len by (rewrite Hone; reflexivity).
    assert (demo_sample df r
            = if has_column "index" no_price
              then select (fun c => negb (mem c ["index"])) one else one)
      as Hsample.
    { unfold demo_sample. rewrite <- Hno_price. cbv zeta. rewrite <- Hone.
      reflexivity. }
    rewrite Hsample.
    assert (fst (demo_predict_one.main BASE_DIR w) =
            match (if has_column "index" one
                   then PandasOps.drop ["index"] one else Ok one) with
            | Ok sample =>
                Spec.outcome_of
                  (result_bind (Pipeline_predict model sample)
                     demo_predict_one.first)
            | Error e => Raised (LibraryError e)
            end) as Hmain.
    { unfold demo_predict_one.main. unfold_run. rewrite Hmodel.
      cbn [fs log]. rewrite Hdata, Hdrop. cbn [result_bind].
      rewrite Hfirst.
      destruct (has_column "index" one).
      - destruct (PandasOps.drop ["index"] one) as [s|e]; [|reflexivity].
        cbn [fst snd fs log].
        destruct (Pipeline_predict model s) as [[|p ps]|e]; reflexivity.
      - cbn [fst snd fs log].
        destruct (Pipeline_predict model one) as [[|p ps]|e]; reflexivity. }
    rewrite Hmain, Hone_idx. clear Hmain.
    destruct (has_column "index" no_price) eqn:Hidx.
    + assert (PandasOps.drop ["index"] one
              = Ok (select (fun c => negb (mem c ["index"])) one)) as Hd2
        by (apply drop_present; repeat constructor; congruence).
      rewrite Hd2. split; [now rewrite select_len|]. split.
      { rewrite (has_column_after_drop _ _ _ "price" Hd2) by reflexivity.
        exact Hone_price. }
      split; [exact (dropped_gone _ _ _ "index" Hd2 (or_introl eq_refl))|].
      reflexivity.
    + split; [exact Hone_len|]. split; [exact Hone_price|].
      split; [congruence | reflexivity].
Qed.

Lemma demo_predicts_on_first_row_witness :
  fst (demo_predict_one.main (L := Reference.lib) EmptyString
         Reference.trained_world)
  = Spec.outcome_of
      (result_bind
         (Pipeline_predict (L := Reference.lib) Reference.fitted
            (demo_sample Reference.data
               [CInt 0; CFloat 40; CStr "Centralnyj"; CFloat 5000000]))
         demo_predict_one.first).
Proof.
  destruct (demo_predicts_on_first_row (L := Reference.lib) EmptyString
              Reference.trained_world Reference.fitted Reference.data
              reference_trained_model)
    as (_ & _ & H).
  - vm_compute. reflexivity.
  - apply (H [CInt 0; CFloat 40; CStr "Centralnyj"; CFloat 5000000]
             [[CInt 1; CFloat 55; CStr "Kirovskij"; CFloat 6100000];
              [CInt 2; NaN; CStr "Centralnyj"; CFloat 4800000];
              [CInt 3; CFloat 72; NaN; CFloat 9000000];
              [CInt 4; CFloat 33; CStr "Kirovskij"; CFloat 3900000]]);
      reflexivity.
Defined.

(** ** The split keeps every row *)

Section SplitFacts.
Context `{L : Sklearn}.

Lemma take_app {A} (idx idx' : list nat) (l : list A) :
  PandasOps.take (idx ++ idx') l = PandasOps.take idx l ++ PandasOps.take idx' l.
Proof. unfold PandasOps.take. apply omap_app. Qed.

Lemma take_all_from {A} (pre l : list A) :
  PandasOps.take (seq (length pre) (length l)) (pre ++ l) = l.
Proof.
  revert pre. induction l as [|x l IH]; intros pre; simpl; [reflexivity|].
  unfold PandasOps.take in *. simpl.
  rewrite lookup_app_r by lia. rewrite Nat.sub_diag. simpl. f_equal.
  specialize (IH (pre ++ [x])). rewrite length_app in IH. simpl in IH.
  rewrite Nat.add_1_r, <- app_assoc in IH. exact IH.
Qed.

Lemma take_all {A} (l : list A) : PandasOps.take (seq 0 (length l)) l = l.
Proof. exact (take_all_from [] l). Qed.

Lemma take_Permutation {A} (idx idx' : list nat) (l : list A) :
  Permutation idx idx' -> Permutation (PandasOps.take idx l) (PandasOps.take idx' l).
Proof.
  intros H. unfold PandasOps.take.
  induction H; simpl.
  - constructor.
  - destruct (l !! x); [now constructor | assumption].
  - destruct (l !! x), (l !! y); try reflexivity. apply perm_swap.
  - now transitivity (omap (fun i => l !! i) l').
Qed.

End SplitFacts.

Lemma reference_split_is_partition : split_is_partition (L := Reference.lib).
Proof.
  intros n ts rs train test H. simpl in H. unfold Reference.split in H.
  destruct (orb _ _) eqn:E; [discriminate|]. injection H as <- <-.
  apply orb_false_iff in E as [_ E]. apply Nat.leb_gt in E.
  rewrite Permutation_app_comm, <- seq_app.
  replace (_ + _) with n by lia. reflexivity.
Qed.

(** X13: with a splitter that deals every row position to the training or
    to the validation side, once, the split of the training script loses
    no row and repeats none.  The training rows and the validation rows
    together are the rows of the table, and the two sample counts the
    script prints add up to the number of rows of the CSV. *)
Theorem split_keeps_every_row `{L : Sklearn}
    (w w' : world) (m : train_model_clean.metrics)
    (Hpart : split_is_partition)
    (Hrun : train_model_clean.main w = (Returned m, w')) :
  exists t,
    trained w t m /\
    Permutation (rows (t_X_train t) ++ rows (t_X_val t)) (rows (t_X t)) /\
    Permutation (values (t_y_train t) ++ values (t_y_val t)) (values (t_y t)) /\
    len (t_X_train t) + len (t_X_val t) = len (t_df t) /\
    In (Print (Count "Training samples" (len (t_X_train t)))) (log w') /\
    In (Print (Count "Validation samples" (len (t_X_val t)))) (log w').
Proof.
  destruct (train_run_inv _ _ _ Hrun) as (t & Ht & _).
  exists t. split; [exact Ht|].
  pose proof (train_run _ _ _ Ht) as Hrun'. rewrite Hrun in Hrun'.
  injection Hrun' as ->.
  destruct Ht as [Hf Hd Hy Hs _ _ _ _ _].
  pose proof (Hpart _ _ _ _ _ Hs) as Hperm.
  assert (Permutation (rows (t_X_train t) ++ rows (t_X_val t)) (rows (t_X t)))
    as Hrows.
  { unfold t_X_train, t_X_val, PandasOps.iloc. cbn [rows].
    rewrite <- take_app. rewrite <- (take_all (rows (t_X t))) at 2.
    apply take_Permutation. exact Hperm. }
  split; [exact Hrows|]. split; [|split].
  - unfold t_y_train, t_y_val, PandasOps.iloc_series. cbn [values].
    rewrite <- take_app.
    destruct (getitem_has_column "price" (t_df t)) as (s & Hget & _ & Hlen).
    { destruct (PandasOps.getitem "price" (t_df t)) eqn:E; [|discriminate].
      destruct (has_column "price" (t_df t)) eqn:Hh; [reflexivity|].
      rewrite (getitem_missing _ _ Hh) in E. discriminate. }
    assert (s = t_y t) as -> by congruence.
    apply drop_Ok in Hd as (_ & HX & _).
    rewrite <- (take_all (values (t_y t))) at 2.
    apply take_Permutation. rewrite Hlen, <- HX. exact Hperm.
  - apply Permutation_length in Hrows. rewrite length_app in Hrows.
    apply drop_Ok in Hd as (_ & HX & _). unfold len in *. lia.
  - cbn [log]. split; apply in_or_app; right; unfold train_events; simpl; tauto.
Qed.

Lemma split_keeps_every_row_witness :
  exists t : training (L := Reference.lib),
    trained Reference.fresh t
      {| train_model_clean.mae := 1; train_model_clean.rmse := 1;
         train_model_clean.r2 := 1 |} /\
    len (t_X_train t) + len (t_X_val t) = len (t_df t).
Proof.
  destruct (split_keeps_every_row (L := Reference.lib)
              Reference.fresh Reference.trained_world
              {| train_model_clean.mae := 1; train_model_clean.rmse := 1;
                 train_model_clean.r2 := 1 |}
              reference_split_is_partition reference_train_run)
    as (t & Ht & _ & _ & Hlen & _).
  exists t. split; assumption.
Defined.

(** ** Columns keep their values *)

Section ColumnValues.

Lemma position_select keep (cols : list (string * dtype)) (c : string) (k : nat) :
  position c cols = Some k -> keep c = true ->
  exists k',
    position c (List.filter (fun cd => keep (fst cd)) cols) = Some k' /\
    nth k' (map snd (List.filter (fun cd => keep (fst cd)) cols)) object
      = nth k (map snd cols) object /\
    forall r, nth k' (project keep cols r) NaN = nth k r NaN.
Proof.
  revert k. induction cols as [|[c0 d0] cols IH]; intros k Hpos Hkeep;
    simpl in *; [discriminate|].
  destruct (String.eqb_spec c c0) as [<-|Hne].
  - injection Hpos as <-. rewrite Hkeep. simpl. rewrite String.eqb_refl.
    exists 0. split; [reflexivity|]. split; [reflexivity|].
    intros [|v r]; reflexivity.
  - destruct (position c cols) as [k0|] eqn:E; [|discriminate].
    injection Hpos as <-.
    destruct (IH k0 eq_refl Hkeep) as (k' & Hk' & Hd & Hr).
    destruct (keep c0) eqn:Hk0; simpl.
    + destruct (String.eqb_spec c c0); [contradiction|]. rewrite Hk'.
      exists (S k'). split; [reflexivity|]. split; [exact Hd|].
      intros [|v r]; simpl; [reflexivity | apply Hr].
    + exists k'. split; [exact Hk'|]. split; [exact Hd|].
      intros [|v r]; simpl; [now destruct k' | apply Hr].
Qed.

(** A column that is kept is found again, with its dtype and its value in
    every row. *)
Lemma getitem_select keep (df : DataFrame) (c : string) :
  keep c = true ->
  PandasOps.getitem c (select keep df) = PandasOps.getitem c df.
Proof.
  intros Hkeep. unfold PandasOps.getitem, select. cbn [columns rows].
  destruct (position c (columns df)) as [k|] eqn:E.
  - destruct (position_select keep _ _ _ E Hkeep) as (k' & -> & Hd & Hr).
    rewrite Hd. f_equal. f_equal. rewrite map_map. apply map_ext. exact Hr.
  - rewrite position_None; [reflexivity|].
    intros Hin. apply in_map_iff in Hin as ([c' d] & <- & Hin).
    apply filter_In in Hin as [Hin _].
    assert (In c' (map fst (columns df))) as Hc
      by (apply in_map_iff; now exists (c', d)).
    apply position_Some in Hc as [k Hk]. simpl in E. congruence.
Qed.

Lemma getitem_dropped (labels : list string) (df X : DataFrame) (c : string) :
  PandasOps.drop labels df = Ok X -> mem c labels = false ->
  PandasOps.getitem c X = PandasOps.getitem c df.
Proof.
  unfold PandasOps.drop. destruct (forallb _ labels); intros H Hc;
    [|discriminate].
  injection H as <-. apply getitem_select. now rewrite Hc.
Qed.

End ColumnValues.

(** X14: dropping columns leaves the other columns as they are.  Whatever
    column of the CSV survives [drop] is read back from the result with
    the same dtype and the same value in every row.  So the features the
    training script fits on hold the values of the training CSV under
    their names, and the features the batch prediction hands to the
    pipeline hold the values of the test CSV. *)
Theorem features_keep_their_values `{L : Sklearn}
    (w w' : world) (m : train_model_clean.metrics)
    (test_df : DataFrame) (idx : Series) (X_test : DataFrame)
    (Hrun : train_model_clean.main w = (Returned m, w'))
    (Hprep : predict_clean.prepare test_df = Ok (idx, X_test)) :
  (exists t,
     trained w t m /\
     forall c, c <> "price" -> c <> "index" ->
       PandasOps.getitem c (t_X t) = PandasOps.getitem c (t_df t)) /\
  (forall c, c <> "index" ->
     PandasOps.getitem c X_test = PandasOps.getitem c test_df).
Proof.
  split.
  - destruct (train_run_inv _ _ _ Hrun) as (t & Ht & _).
    exists t. split; [exact Ht|]. destruct Ht as [_ Hd _ _ _ _ _ _ _].
    intros c Hp Hi. apply (getitem_dropped _ _ _ _ Hd). simpl.
    apply String.eqb_neq in Hp, Hi. now rewrite Hp, Hi.
  - intros c Hi. destruct (has_column "index" test_df) eqn:Hidx.
    + destruct (prepare_with_index _ Hidx) as (s & X & Hp & _ & Hdrop).
      rewrite Hp in Hprep. injection Hprep as <- <-.
      apply (getitem_dropped _ _ _ _ Hdrop). simpl.
      apply String.eqb_neq in Hi. now rewrite Hi.
    + rewrite (prepare_without_index _ Hidx) in Hprep.
      now injection Hprep as <- <-.
Qed.

Lemma features_keep_their_values_witness :
  PandasOps.getitem "total_area"
    {| columns := [("total_area", float64); ("district_name", object)];
       rows := [[CFloat 61; CStr "Kirovskij"];
                [CFloat 47; CStr "Centralnyj"]] |}
  = PandasOps.getitem "total_area" Reference.test.
Proof.
  refine (proj2 (features_keep_their_values (L := Reference.lib)
                   Reference.fresh Reference.trained_world
                   {| train_model_clean.mae := 1; train_model_clean.rmse := 1;
                      train_model_clean.r2 := 1 |}
                   Reference.test
                   {| name := "index"; sdtype := int64;
                      values := [CInt 10; CInt 11] |}
                   {| columns := [("total_area", float64);
                                  ("district_name", object)];
                      rows := [[CFloat 61; CStr "Kirovskij"];
                               [CFloat 47; CStr "Centralnyj"]] |}
                   reference_train_run eq_refl) "total_area" _).
  discriminate.
Defined.

(** ** The index is an identifier, not a feature *)

Section IndexValues.

Lemma project_project f g (cols : list (string * dtype)) (r : list cell) :
  project f (List.filter (fun cd => g (fst cd)) cols) (project g cols r)
  = project (fun c => f c && g c) cols r.
Proof.
  revert r. induction cols as [|[c d] cols IH]; intros r; simpl; [reflexivity|].
  destruct r as [|v r].
  - destruct (g c); simpl; [|now destruct (List.filter _ cols) as [|[? ?] ?]].
    reflexivity.
  - destruct (g c) eqn:Hg; simpl.
    + rewrite andb_true_r. destruct (f c); [f_equal|]; apply IH.
    + rewrite andb_false_r. apply IH.
Qed.

Lemma select_select f g (df : DataFrame) :
  select f (select g df) = select (fun c => f c && g c) df.
Proof.
  unfold select. cbn [columns rows]. f_equal.
  - induction (columns df) as [|[c d] cols IH]; simpl; [reflexivity|].
    destruct (g c); simpl.
    + rewrite andb_true_r. destruct (f c); [f_equal|]; exact IH.
    + rewrite andb_false_r. exact IH.
  - rewrite map_map. apply map_ext. intros r. apply project_project.
Qed.

Lemma project_ext f g (cols : list (string * dtype)) (r : list cell) :
  (forall c, f c = g c) -> project f cols r = project g cols r.
Proof.
  intros H. revert r. induction cols as [|[c d] cols IH]; intros [|v r];
    simpl; try reflexivity.
  rewrite H. destruct (g c); [f_equal|]; apply IH.
Qed.

Lemma select_ext f g (df : DataFrame) :
  (forall c, f c = g c) -> select f df = select g df.
Proof.
  intros H. unfold select. f_equal.
  - apply filter_ext. intros [c d]. apply H.
  - apply map_ext. intros r. now apply project_ext.
Qed.

(** The features and the target of a table are those of the table without
    its [index] column. *)
Lemma features_without_index (df : DataFrame) :
  select (fun c => negb (mem c ["price"; "index"])) df
  = select (fun c => negb (mem c ["price"; "index"]))
      (select (fun c => negb (mem c ["index"])) df).
Proof.
  rewrite select_select. apply select_ext. intros c. simpl.
  destruct (String.eqb c "price"), (String.eqb c "index"); reflexivity.
Qed.

End IndexValues.

(** X15: the values of the [index] column never reach the model.  Two
    training tables with the same columns that agree in everything but the
    values under [index] give the training script the same features and
    the same target, so the run ends the same way: the same metrics from
    the same calls, or the same exception. *)
Theorem index_values_do_not_matter `{L : Sklearn}
    (w w2 : world) (df df2 : DataFrame)
    (Hdf : fs w !! "data/data.csv" = Some (CsvFile df))
    (Hdf2 : fs w2 !! "data/data.csv" = Some (CsvFile df2))
    (Hcols : columns df = columns df2)
    (Hsame : select (fun c => negb (mem c ["index"])) df
             = select (fun c => negb (mem c ["index"])) df2) :
  PandasOps.drop ["price"; "index"] df = PandasOps.drop ["price"; "index"] df2 /\
  PandasOps.getitem "price" df = PandasOps.getitem "price" df2 /\
  fst (train_model_clean.main w) = fst (train_model_clean.main w2).
Proof.
  assert (PandasOps.drop ["price"; "index"] df
          = PandasOps.drop ["price"; "index"] df2) as Hdrop.
  { unfold PandasOps.drop, has_column, column_names. rewrite <- Hcols.
    destruct (forallb _ _); [|reflexivity]. f_equal.
    now rewrite (features_without_index df), (features_without_index df2), Hsame. }
  assert (PandasOps.getitem "price" df = PandasOps.getitem "price" df2) as Hy.
  { rewrite <- (getitem_select (fun c => negb (mem c ["index"])) df "price")
      by reflexivity.
    rewrite <- (getitem_select (fun c => negb (mem c ["index"])) df2 "price")
      by reflexivity.
    now rewrite Hsame. }
  split; [exact Hdrop|]. split; [exact Hy|].
  rewrite (train_outcome w df Hdf), (train_outcome w2 df2 Hdf2).
  now rewrite Hdrop, Hy.
Qed.

Lemma index_values_do_not_matter_witness :
  fst (train_model_clean.main (L := Reference.lib) Reference.fresh)
  = fst (train_model_clean.main (L := Reference.lib) Reference.fresh_renumbered).
Proof.
  refine (proj2 (proj2 (index_values_do_not_matter (L := Reference.lib)
            Reference.fresh Reference.fresh_renumbered
            Reference.data Reference.data_renumbered _ _ _ _)));
    try reflexivity; vm_compute; reflexivity.
Defined.
